(** * db.py: the SQLite access layer of the startup-collaboration bot

    A shallow embedding of [src/db.py].  The three tables of the schema are
    lists of records, the SQL statements the module sends are a small
    statement type with an executable meaning on those tables, and every
    Python function of the module is a program in a state-and-exception
    monad over a world made of the database file, the open connections, a
    clock and a fault schedule of the storage engine.

    The effects of a statement stay in the world when a later statement
    raises, as in Python; a write reaches the file only at [commit], and a
    connection is closed only by [close]. *)

From Stdlib Require Import ZArith List String Bool Arith Lia Permutation.
Import ListNotations.

Open Scope string_scope.
Open Scope Z_scope.

(** ** Schema (init_db, lines 24-69) *)

(** [datetime.now()] values; the engine stores their ISO text, whose order
    is the chronological one. *)
Definition timestamp := Z.

(** users(id, user_id UNIQUE NOT NULL, username, first_name, last_name='',
    phone='', gender='', birth_date='', bio='', joined_at) *)
Record user := mkUser {
  u_id : Z;
  u_user_id : Z;
  u_username : string;
  u_first_name : string;
  u_last_name : string;
  u_phone : string;
  u_gender : string;
  u_birth_date : string;
  u_bio : string;
  u_joined_at : timestamp }.

(** startups(id, name, description, logo, group_link, owner_id,
    status='pending', results='', created_at, started_at, ended_at) *)
Record startup := mkStartup {
  s_id : Z;
  s_name : string;
  s_description : string;
  s_logo : option string;
  s_group_link : string;
  s_owner_id : Z;
  s_status : string;
  s_results : string;
  s_created_at : timestamp;
  s_started_at : option timestamp;
  s_ended_at : option timestamp }.

(** startup_members(id, startup_id, user_id, status='pending', joined_at,
    UNIQUE(startup_id, user_id)) *)
Record member := mkMember {
  m_id : Z;
  m_startup_id : Z;
  m_user_id : Z;
  m_status : string;
  m_joined_at : timestamp }.

(** The database file once the schema exists.  Each table is kept in rowid
    order; the [_seq] fields are the AUTOINCREMENT counters that SQLite keeps
    in sqlite_sequence. *)
Record store := mkStore {
  users : list user;
  users_seq : Z;
  startups : list startup;
  startups_seq : Z;
  members : list member;
  members_seq : Z }.

Definition empty_store : store := mkStore [] 0 [] 0 [] 0.

(** ** Python values and result rows *)

Inductive pyval :=
| PyNone
| PyInt (z : Z)
| PyStr (s : string)
| PyTime (t : timestamp).

(** A [sqlite3.Row], and the dict that [dict(row)] builds from it: column
    names with their values, in column order. *)
Definition row := list (string * pyval).

Definition py_opt {A} (f : A -> pyval) (o : option A) : pyval :=
  match o with Some a => f a | None => PyNone end.

Definition user_row (u : user) : row :=
  [ ("id", PyInt (u_id u)); ("user_id", PyInt (u_user_id u));
    ("username", PyStr (u_username u)); ("first_name", PyStr (u_first_name u));
    ("last_name", PyStr (u_last_name u)); ("phone", PyStr (u_phone u));
    ("gender", PyStr (u_gender u)); ("birth_date", PyStr (u_birth_date u));
    ("bio", PyStr (u_bio u)); ("joined_at", PyTime (u_joined_at u)) ].

Definition startup_row (s : startup) : row :=
  [ ("id", PyInt (s_id s)); ("name", PyStr (s_name s));
    ("description", PyStr (s_description s)); ("logo", py_opt PyStr (s_logo s));
    ("group_link", PyStr (s_group_link s)); ("owner_id", PyInt (s_owner_id s));
    ("status", PyStr (s_status s)); ("results", PyStr (s_results s));
    ("created_at", PyTime (s_created_at s));
    ("started_at", py_opt PyTime (s_started_at s));
    ("ended_at", py_opt PyTime (s_ended_at s)) ].

(** SELECT u.user_id, u.first_name, u.last_name, u.username, u.phone, u.bio *)
Definition member_profile_row (u : user) : row :=
  [ ("user_id", PyInt (u_user_id u)); ("first_name", PyStr (u_first_name u));
    ("last_name", PyStr (u_last_name u)); ("username", PyStr (u_username u));
    ("phone", PyStr (u_phone u)); ("bio", PyStr (u_bio u)) ].

(** SELECT user_id, username, first_name, last_name, joined_at *)
Definition recent_user_row (u : user) : row :=
  [ ("user_id", PyInt (u_user_id u)); ("username", PyStr (u_username u));
    ("first_name", PyStr (u_first_name u)); ("last_name", PyStr (u_last_name u));
    ("joined_at", PyTime (u_joined_at u)) ].

(** SELECT id, name, status, created_at *)
Definition recent_startup_row (s : startup) : row :=
  [ ("id", PyInt (s_id s)); ("name", PyStr (s_name s));
    ("status", PyStr (s_status s)); ("created_at", PyTime (s_created_at s)) ].

Definition count_row (n : Z) : row := [ ("COUNT(*)", PyInt n) ].
Definition id_row (i : Z) : row := [ ("id", PyInt i) ].
Definition user_id_row (i : Z) : row := [ ("user_id", PyInt i) ].

(** ** The SQL the module sends, and what it means on a store *)

Module Sql.

(** The columns [update_user_field] can name in this model: the TEXT columns
    of users, where a bound str is stored as it is.  The statement text is
    built by an f-string, so any other text reaches the engine too; the
    columns id, user_id and joined_at (whose affinity converts the bound
    text) and texts that are not a bare lower-case column name are outside
    this model and are treated as rejected by the engine. *)
Inductive text_column :=
| Username | FirstName | LastName | Phone | Gender | BirthDate | Bio.

Definition column_of (field : string) : option text_column :=
  if String.eqb field "username" then Some Username
  else if String.eqb field "first_name" then Some FirstName
  else if String.eqb field "last_name" then Some LastName
  else if String.eqb field "phone" then Some Phone
  else if String.eqb field "gender" then Some Gender
  else if String.eqb field "birth_date" then Some BirthDate
  else if String.eqb field "bio" then Some Bio
  else None.

Definition get_column (c : text_column) (u : user) : string :=
  match c with
  | Username => u_username u
  | FirstName => u_first_name u
  | LastName => u_last_name u
  | Phone => u_phone u
  | Gender => u_gender u
  | BirthDate => u_birth_date u
  | Bio => u_bio u
  end.

Definition set_column (c : text_column) (v : string) (u : user) : user :=
  match c with
  | Username => mkUser (u_id u) (u_user_id u) v (u_first_name u) (u_last_name u)
      (u_phone u) (u_gender u) (u_birth_date u) (u_bio u) (u_joined_at u)
  | FirstName => mkUser (u_id u) (u_user_id u) (u_username u) v (u_last_name u)
      (u_phone u) (u_gender u) (u_birth_date u) (u_bio u) (u_joined_at u)
  | LastName => mkUser (u_id u) (u_user_id u) (u_username u) (u_first_name u) v
      (u_phone u) (u_gender u) (u_birth_date u) (u_bio u) (u_joined_at u)
  | Phone => mkUser (u_id u) (u_user_id u) (u_username u) (u_first_name u)
      (u_last_name u) v (u_gender u) (u_birth_date u) (u_bio u) (u_joined_at u)
  | Gender => mkUser (u_id u) (u_user_id u) (u_username u) (u_first_name u)
      (u_last_name u) (u_phone u) v (u_birth_date u) (u_bio u) (u_joined_at u)
  | BirthDate => mkUser (u_id u) (u_user_id u) (u_username u) (u_first_name u)
      (u_last_name u) (u_phone u) (u_gender u) v (u_bio u) (u_joined_at u)
  | Bio => mkUser (u_id u) (u_user_id u) (u_username u) (u_first_name u)
      (u_last_name u) (u_phone u) (u_gender u) (u_birth_date u) v (u_joined_at u)
  end.

(** One constructor per statement text of db.py, carrying the bound
    parameters.  A double-quoted word such as ["pending"] names no column of
    the table it is used on, so SQLite reads it as a string literal. *)
Inductive stmt :=
(* init_db *)
| CreateTableIfNotExists (table : string)
| CreateIndexIfNotExists (index : string)
(* users *)
| SelectUserByUserId (user_id : Z)
| InsertOrReplaceUser (user_id : Z) (username first_name : string) (joined_at : timestamp)
| UpdateUserSet (field : string) (value : string) (user_id : Z)
| SelectUserIds
| SelectRecentUsers (limit : Z)
| CountUsers
(* startups *)
| InsertStartup (name description logo group_link : string) (owner_id : Z) (created_at : timestamp)
| SelectStartupById (id : Z)
| SelectStartupsByOwner (owner_id : Z)
| CountStartups
| CountStartupsWithStatus (status : string)
| SelectStartupsWithStatus (status : string) (limit offset : Z)
| SelectRecentStartups (limit : Z)
| UpdateStartupStatusStarted (status : string) (started_at : timestamp) (id : Z)
| UpdateStartupStatusEnded (status : string) (ended_at : timestamp) (id : Z)
| UpdateStartupStatus (status : string) (id : Z)
| UpdateStartupResults (results : string) (id : Z)
(* startup_members *)
| SelectMemberId (startup_id user_id : Z)
| InsertMember (startup_id user_id : Z) (joined_at : timestamp)
| UpdateMemberStatus (status : string) (id : Z)
| CountAcceptedMembers (startup_id : Z)
| SelectAcceptedMembers (startup_id limit offset : Z)
| SelectAcceptedMemberIds (startup_id : Z).

(** INSERT, REPLACE and UPDATE open the implicit transaction of the Python
    sqlite3 module; SELECT and CREATE do not. *)
Definition writes (q : stmt) : bool :=
  match q with
  | InsertOrReplaceUser _ _ _ _ | UpdateUserSet _ _ _
  | InsertStartup _ _ _ _ _ _
  | UpdateStartupStatusStarted _ _ _ | UpdateStartupStatusEnded _ _ _
  | UpdateStartupStatus _ _ | UpdateStartupResults _ _
  | InsertMember _ _ _ | UpdateMemberStatus _ _ => true
  | _ => false
  end.

(** AUTOINCREMENT: one more than the largest rowid the table has ever held. *)
Definition next_rowid (ids : list Z) (seq : Z) : Z :=
  Z.max seq (fold_right Z.max 0 ids) + 1.

(** LIMIT ? OFFSET ?: a negative offset skips nothing, a negative limit
    takes everything. *)
Definition limit_offset {A} (limit offset : Z) (l : list A) : list A :=
  let rest := skipn (Z.to_nat offset) l in
  if limit <? 0 then rest else firstn (Z.to_nat limit) rest.

(** ORDER BY key DESC over the rows in scan order.  SQLite leaves the order
    of rows with equal keys open; here they keep their scan order. *)
Fixpoint insert_desc {A} (key : A -> Z) (x : A) (l : list A) : list A :=
  match l with
  | [] => [x]
  | y :: l' => if key x <? key y then y :: insert_desc key x l' else x :: l
  end.

Definition order_by_desc {A} (key : A -> Z) (l : list A) : list A :=
  fold_right (insert_desc key) [] l.

Definition count {A} (l : list A) : Z := Z.of_nat (List.length l).

Definition with_status (status : string) (s : startup) : bool :=
  String.eqb (s_status s) status.

Definition member_of (startup_id user_id : Z) (m : member) : bool :=
  (m_startup_id m =? startup_id) && (m_user_id m =? user_id).

Definition accepted_in (startup_id : Z) (m : member) : bool :=
  (m_startup_id m =? startup_id) && String.eqb (m_status m) "accepted".

(** FROM startup_members sm JOIN users u ON sm.user_id = u.user_id
    WHERE sm.startup_id = ? AND sm.status = "accepted" *)
Definition accepted_join (startup_id : Z) (st : store) : list user :=
  flat_map (fun m => filter (fun u => u_user_id u =? m_user_id m) (users st))
           (filter (accepted_in startup_id) (members st)).

Definition set_users (st : store) (us : list user) (seq : Z) : store :=
  mkStore us seq (startups st) (startups_seq st) (members st) (members_seq st).

Definition set_startups (st : store) (ss : list startup) (seq : Z) : store :=
  mkStore (users st) (users_seq st) ss seq (members st) (members_seq st).

Definition set_members (st : store) (ms : list member) (seq : Z) : store :=
  mkStore (users st) (users_seq st) (startups st) (startups_seq st) ms seq.

Definition update_where {A} (hit : A -> bool) (f : A -> A) (l : list A) : list A :=
  map (fun x => if hit x then f x else x) l.

Definition set_status (status : string) (s : startup) : startup :=
  mkStartup (s_id s) (s_name s) (s_description s) (s_logo s) (s_group_link s)
    (s_owner_id s) status (s_results s) (s_created_at s) (s_started_at s) (s_ended_at s).

Definition set_started (status : string) (t : timestamp) (s : startup) : startup :=
  mkStartup (s_id s) (s_name s) (s_description s) (s_logo s) (s_group_link s)
    (s_owner_id s) status (s_results s) (s_created_at s) (Some t) (s_ended_at s).

Definition set_ended (status : string) (t : timestamp) (s : startup) : startup :=
  mkStartup (s_id s) (s_name s) (s_description s) (s_logo s) (s_group_link s)
    (s_owner_id s) status (s_results s) (s_created_at s) (s_started_at s) (Some t).

Definition set_results (results : string) (s : startup) : startup :=
  mkStartup (s_id s) (s_name s) (s_description s) (s_logo s) (s_group_link s)
    (s_owner_id s) (s_status s) results (s_created_at s) (s_started_at s) (s_ended_at s).

Definition set_member_status (status : string) (m : member) : member :=
  mkMember (m_id m) (m_startup_id m) (m_user_id m) status (m_joined_at m).

(** What a statement gives back: the store after it, the result rows, and
    the rowid of the inserted row when it is an INSERT. *)
Record answer := mkAnswer {
  a_store : store;
  a_rows : list row;
  a_lastrowid : option Z }.

Inductive failure :=
| IntegrityError (what : string)
| OperationalError (what : string).

Definition reads (st : store) (rows : list row) : failure + answer :=
  inr (mkAnswer st rows None).

(** The meaning of a statement on a store that has the schema; [inl] when
    the engine rejects the statement.  The CREATE ... IF NOT EXISTS
    statements of init_db find their table or index and change nothing.  The
    FOREIGN KEY clauses are not enforced: the module never sets PRAGMA
    foreign_keys.  TEXT is compared byte by byte (the default BINARY
    collation). *)
Definition run (q : stmt) (st : store) : failure + answer :=
  match q with
  | CreateTableIfNotExists _ | CreateIndexIfNotExists _ => reads st []
  | SelectUserByUserId uid =>
      reads st (map user_row (filter (fun u => u_user_id u =? uid) (users st)))
  | InsertOrReplaceUser uid username first_name joined_at =>
      let id := next_rowid (map u_id (users st)) (users_seq st) in
      let kept := filter (fun u => negb (u_user_id u =? uid)) (users st) in
      inr (mkAnswer
             (set_users st
                (kept ++ [mkUser id uid username first_name "" "" "" "" "" joined_at]) id)
             [] (Some id))
  | UpdateUserSet field value uid =>
      match column_of field with
      | Some c =>
          inr (mkAnswer
                 (set_users st
                    (update_where (fun u => u_user_id u =? uid) (set_column c value) (users st))
                    (users_seq st))
                 [] None)
      | None => inl (OperationalError "no such column")
      end
  | SelectUserIds => reads st (map (fun u => user_id_row (u_user_id u)) (users st))
  | SelectRecentUsers limit =>
      reads st (map recent_user_row
                  (limit_offset limit 0 (order_by_desc u_joined_at (users st))))
  | CountUsers => reads st [count_row (count (users st))]
  | InsertStartup name description logo group_link owner_id created_at =>
      let id := next_rowid (map s_id (startups st)) (startups_seq st) in
      inr (mkAnswer
             (set_startups st
                (startups st ++ [mkStartup id name description (Some logo) group_link
                                   owner_id "pending" "" created_at None None]) id)
             [] (Some id))
  | SelectStartupById id =>
      reads st (map startup_row (filter (fun s => s_id s =? id) (startups st)))
  | SelectStartupsByOwner owner_id =>
      reads st (map startup_row
                  (order_by_desc s_created_at
                     (filter (fun s => s_owner_id s =? owner_id) (startups st))))
  | CountStartups => reads st [count_row (count (startups st))]
  | CountStartupsWithStatus status =>
      reads st [count_row (count (filter (with_status status) (startups st)))]
  | SelectStartupsWithStatus status limit offset =>
      reads st (map startup_row
                  (limit_offset limit offset
                     (order_by_desc s_created_at
                        (filter (with_status status) (startups st)))))
  | SelectRecentStartups limit =>
      reads st (map recent_startup_row
                  (limit_offset limit 0 (order_by_desc s_created_at (startups st))))
  | UpdateStartupStatusStarted status started_at id =>
      inr (mkAnswer
             (set_startups st
                (update_where (fun s => s_id s =? id) (set_started status started_at) (startups st))
                (startups_seq st))
             [] None)
  | UpdateStartupStatusEnded status ended_at id =>
      inr (mkAnswer
             (set_startups st
                (update_where (fun s => s_id s =? id) (set_ended status ended_at) (startups st))
                (startups_seq st))
             [] None)
  | UpdateStartupStatus status id =>
      inr (mkAnswer
             (set_startups st
                (update_where (fun s => s_id s =? id) (set_status status) (startups st))
                (startups_seq st))
             [] None)
  | UpdateStartupResults results id =>
      inr (mkAnswer
             (set_startups st
                (update_where (fun s => s_id s =? id) (set_results results) (startups st))
                (startups_seq st))
             [] None)
  | SelectMemberId startup_id user_id =>
      reads st (map (fun m => id_row (m_id m))
                  (filter (member_of startup_id user_id) (members st)))
  | InsertMember startup_id user_id joined_at =>
      if existsb (member_of startup_id user_id) (members st)
      then inl (IntegrityError "UNIQUE constraint failed: startup_members.startup_id, startup_members.user_id")
      else
        let id := next_rowid (map m_id (members st)) (members_seq st) in
        inr (mkAnswer
               (set_members st
                  (members st ++ [mkMember id startup_id user_id "pending" joined_at]) id)
               [] (Some id))
  | UpdateMemberStatus status id =>
      inr (mkAnswer
             (set_members st
                (update_where (fun m => m_id m =? id) (set_member_status status) (members st))
                (members_seq st))
             [] None)
  | CountAcceptedMembers startup_id =>
      reads st [count_row (count (accepted_join startup_id st))]
  | SelectAcceptedMembers startup_id limit offset =>
      reads st (map member_profile_row
                  (limit_offset limit offset (accepted_join startup_id st)))
  | SelectAcceptedMemberIds startup_id =>
      reads st (map (fun m => user_id_row (m_user_id m))
                  (filter (accepted_in startup_id) (members st)))
  end.

(** The store a statement leaves when it is accepted; a rejected statement
    leaves the store as it was. *)
Definition store_after (q : stmt) (st : store) : store :=
  match run q st with
  | inr a => a_store a
  | inl _ => st
  end.

End Sql.

(** ** The runtime: exceptions, the world, the monad *)

Inductive exn :=
| DatabaseError (f : Sql.failure)   (* the engine rejected the statement *)
| EngineFault (call : nat)          (* the engine failed at this call: I/O, lock, ... *)
| ProgrammingError (what : string)  (* a closed connection was used *)
| TypeError (what : string)
| IndexError (what : string).

Inductive outcome (A : Type) :=
| Returned (a : A)
| Raised (e : exn).
Arguments Returned {A} a.
Arguments Raised {A} e.

Record log_record := mkLog {
  lr_message : string;
  lr_args : list pyval;
  lr_exn : option exn }.

(** [disk] is the committed database file.  [conns] lists the connections
    that are open, each with the store of its uncommitted transaction when it
    has one.  [faults] says which engine calls fail, counted by [calls];
    [clock] gives the successive readings of [datetime.now()]. *)
Record world := mkWorld {
  disk : store;
  conns : list (nat * option store);
  next_conn : nat;
  faults : nat -> bool;
  calls : nat;
  clock : nat -> timestamp;
  clock_reads : nat;
  log : list log_record }.

Definition M (A : Type) : Type := world -> outcome A * world.

Definition ret {A} (a : A) : M A := fun w => (Returned a, w).

Definition bind {A B} (m : M A) (k : A -> M B) : M B := fun w =>
  match m w with
  | (Returned a, w') => k a w'
  | (Raised e, w') => (Raised e, w')
  end.

Definition raise {A} (e : exn) : M A := fun w => (Raised e, w).

(** try: body / except Exception as e: handler e *)
Definition try_except {A} (body : M A) (handler : exn -> M A) : M A := fun w =>
  match body w with
  | (Returned a, w') => (Returned a, w')
  | (Raised e, w') => handler e w'
  end.

Declare Scope py_scope.
Delimit Scope py_scope with py.
Notation "x <- m ;; k" := (bind m (fun x => k))
  (at level 61, m at next level, right associativity) : py_scope.
Notation "' p <- m ;; k" := (bind m (fun x => let 'p := x in k))
  (at level 61, p pattern, m at next level, right associativity) : py_scope.
Notation "m ;; k" := (bind m (fun _ => k))
  (at level 61, right associativity) : py_scope.
Open Scope py_scope.

Definition the_outcome {A} (r : outcome A * world) : outcome A := fst r.
Definition the_world {A} (r : outcome A * world) : world := snd r.

(** *** World updates *)

Definition with_disk (st : store) (w : world) : world :=
  mkWorld st (conns w) (next_conn w) (faults w) (calls w) (clock w) (clock_reads w) (log w).

Definition with_conns (cs : list (nat * option store)) (w : world) : world :=
  mkWorld (disk w) cs (next_conn w) (faults w) (calls w) (clock w) (clock_reads w) (log w).

Fixpoint txn_of (h : nat) (cs : list (nat * option store)) : option (option store) :=
  match cs with
  | [] => None
  | (h', t) :: cs' => if Nat.eqb h' h then Some t else txn_of h cs'
  end.

Fixpoint set_txn (h : nat) (t : option store) (cs : list (nat * option store)) :=
  match cs with
  | [] => []
  | (h', t') :: cs' =>
      if Nat.eqb h' h then (h', t) :: cs' else (h', t') :: set_txn h t cs'
  end.

Definition drop_conn (h : nat) (cs : list (nat * option store)) :=
  filter (fun c => negb (Nat.eqb (fst c) h)) cs.

(** *** The sqlite3 module *)

(** Every call into the engine consults the fault schedule first.  The
    schedule stands for every failure the sqlite3 module can raise that the
    rows of the tables do not decide: the file cannot be opened or is locked,
    an I/O error, a bound integer outside the 64 bits of an SQLite INTEGER. *)
Definition engine_call : M unit := fun w =>
  let w' := mkWorld (disk w) (conns w) (next_conn w) (faults w) (S (calls w))
              (clock w) (clock_reads w) (log w) in
  if faults w (calls w) then (Raised (EngineFault (calls w)), w') else (Returned tt, w').

(** sqlite3.connect(DATABASE_NAME), lines 12-16 *)
Definition get_db_connection : M nat :=
  engine_call ;;
  fun w =>
    (Returned (next_conn w),
     mkWorld (disk w) ((next_conn w, None) :: conns w) (S (next_conn w))
       (faults w) (calls w) (clock w) (clock_reads w) (log w)).

(** A cursor: its connection, the rows not fetched yet, and lastrowid. *)
Record cursor := mkCursor {
  c_conn : nat;
  c_rows : list row;
  c_lastrowid : option Z }.

Definition conn_cursor (conn : nat) : M cursor :=
  engine_call ;;
  fun w =>
    match txn_of conn (conns w) with
    | Some _ => (Returned (mkCursor conn [] None), w)
    | None => (Raised (ProgrammingError "Cannot operate on a closed database."), w)
    end.

(** cursor.execute(sql, params): the statement runs on what the connection
    sees, its own uncommitted transaction or else the file; a writing
    statement leaves its result in the transaction. *)
Definition execute (cur : cursor) (q : Sql.stmt) : M cursor :=
  engine_call ;;
  fun w =>
    match txn_of (c_conn cur) (conns w) with
    | None => (Raised (ProgrammingError "Cannot operate on a closed database."), w)
    | Some t =>
        let view := match t with Some st => st | None => disk w end in
        match Sql.run q view with
        | inl f => (Raised (DatabaseError f), w)
        | inr a =>
            (Returned (mkCursor (c_conn cur) (Sql.a_rows a)
                         (match Sql.a_lastrowid a with
                          | Some i => Some i
                          | None => c_lastrowid cur
                          end)),
             if Sql.writes q
             then with_conns (set_txn (c_conn cur) (Some (Sql.a_store a)) (conns w)) w
             else w)
        end
    end.

Definition fetchone (cur : cursor) : M (option row * cursor) :=
  engine_call ;;
  match c_rows cur with
  | [] => ret (None, cur)
  | r :: rest => ret (Some r, mkCursor (c_conn cur) rest (c_lastrowid cur))
  end.

Definition fetchall (cur : cursor) : M (list row * cursor) :=
  engine_call ;;
  ret (c_rows cur, mkCursor (c_conn cur) [] (c_lastrowid cur)).

Definition commit (conn : nat) : M unit :=
  engine_call ;;
  fun w =>
    match txn_of conn (conns w) with
    | None => (Raised (ProgrammingError "Cannot operate on a closed database."), w)
    | Some None => (Returned tt, w)
    | Some (Some st) => (Returned tt, with_disk st (with_conns (set_txn conn None (conns w)) w))
    end.

(** conn.close(): an uncommitted transaction is dropped with the connection. *)
Definition close (conn : nat) : M unit :=
  engine_call ;;
  fun w => (Returned tt, with_conns (drop_conn conn (conns w)) w).

(** *** datetime, logging, subscripts *)

Definition datetime_now : M timestamp := fun w =>
  (Returned (clock w (clock_reads w)),
   mkWorld (disk w) (conns w) (next_conn w) (faults w) (calls w)
     (clock w) (S (clock_reads w)) (log w)).

Definition logging_error (message : string) (args : list pyval) (e : exn) : M unit :=
  fun w =>
    (Returned tt,
     mkWorld (disk w) (conns w) (next_conn w) (faults w) (calls w)
       (clock w) (clock_reads w) (log w ++ [mkLog message args (Some e)])).

Definition logging_info (message : string) : M unit :=
  fun w =>
    (Returned tt,
     mkWorld (disk w) (conns w) (next_conn w) (faults w) (calls w)
       (clock w) (clock_reads w) (log w ++ [mkLog message [] None])).

(** fetchone()[0] *)
Definition item0 (r : option row) : M pyval :=
  match r with
  | None => raise (TypeError "'NoneType' object is not subscriptable")
  | Some [] => raise (IndexError "Index out of range")
  | Some ((_, v) :: _) => ret v
  end.

Fixpoint lookup (key : string) (r : row) : option pyval :=
  match r with
  | [] => None
  | (k, v) :: r' => if String.eqb k key then Some v else lookup key r'
  end.

(** row['key'] *)
Definition item (key : string) (r : row) : M pyval :=
  match lookup key r with
  | Some v => ret v
  | None => raise (IndexError "No item with that key")
  end.

(** dict(row) *)
Definition dict (r : row) : row := r.

(** [f(row) for row in rows] *)
Fixpoint for_each {A B} (f : A -> M B) (l : list A) : M (list B) :=
  match l with
  | [] => ret []
  | x :: l' => y <- f x ;; ys <- for_each f l' ;; ret (y :: ys)
  end.

(** ** db.py *)

(** init_db, lines 18-80: no try block here. *)
Definition init_db : M unit :=
  conn <- get_db_connection ;;
  cursor <- conn_cursor conn ;;
  cursor <- execute cursor (Sql.CreateTableIfNotExists "users") ;;
  cursor <- execute cursor (Sql.CreateTableIfNotExists "startups") ;;
  cursor <- execute cursor (Sql.CreateTableIfNotExists "startup_members") ;;
  cursor <- execute cursor (Sql.CreateIndexIfNotExists "idx_user_id") ;;
  cursor <- execute cursor (Sql.CreateIndexIfNotExists "idx_startup_owner") ;;
  cursor <- execute cursor (Sql.CreateIndexIfNotExists "idx_startup_status") ;;
  cursor <- execute cursor (Sql.CreateIndexIfNotExists "idx_member_startup") ;;
  cursor <- execute cursor (Sql.CreateIndexIfNotExists "idx_member_user") ;;
  commit conn ;;
  close conn ;;
  logging_info "SQLite database initialized successfully".

(** *** Users *)

(** get_user, lines 84-103.  Each function is its try block, named [_try],
    under its except clause.  A Row fetched by one of the SELECTs of this
    module has columns, so [if user:] is the test that a row was fetched. *)
Definition get_user_try (user_id : Z) : M (option row) :=
  conn <- get_db_connection ;;
  cursor <- conn_cursor conn ;;
  cursor <- execute cursor (Sql.SelectUserByUserId user_id) ;;
  '(user, cursor) <- fetchone cursor ;;
  close conn ;;
  match user with
  | Some user => ret (Some (dict user))
  | None => ret None
  end.

Definition get_user (user_id : Z) : M (option row) :=
  try_except (get_user_try user_id)
    (fun e => logging_error "Error getting user" [PyInt user_id] e ;; ret None).

(** save_user, lines 105-119 *)
Definition save_user_try (user_id : Z) (username first_name : string) : M unit :=
  conn <- get_db_connection ;;
  cursor <- conn_cursor conn ;;
  now <- datetime_now ;;
  cursor <- execute cursor (Sql.InsertOrReplaceUser user_id username first_name now) ;;
  commit conn ;;
  close conn.

Definition save_user (user_id : Z) (username first_name : string) : M unit :=
  try_except (save_user_try user_id username first_name)
    (fun e => logging_error "Error saving user" [PyInt user_id] e).

(** update_user_field, lines 121-135 *)
Definition update_user_field_try (user_id : Z) (field value : string) : M unit :=
  conn <- get_db_connection ;;
  cursor <- conn_cursor conn ;;
  cursor <- execute cursor (Sql.UpdateUserSet field value user_id) ;;
  commit conn ;;
  close conn.

Definition update_user_field (user_id : Z) (field value : string) : M unit :=
  try_except (update_user_field_try user_id field value)
    (fun e => logging_error "Error updating user field" [PyInt user_id; PyStr field] e).

(** *** Startups *)

(** create_startup, lines 139-157 *)
Definition create_startup_try (name description logo group_link : string) (owner_id : Z)
  : M pyval :=
  conn <- get_db_connection ;;
  cursor <- conn_cursor conn ;;
  now <- datetime_now ;;
  cursor <- execute cursor (Sql.InsertStartup name description logo group_link owner_id now) ;;
  let startup_id := py_opt PyInt (c_lastrowid cursor) in
  commit conn ;;
  close conn ;;
  ret startup_id.

Definition create_startup (name description logo group_link : string) (owner_id : Z)
  : M pyval :=
  try_except (create_startup_try name description logo group_link owner_id)
    (fun e => logging_error "Error creating startup" [] e ;; ret PyNone).

(** get_startup, lines 159-178 *)
Definition get_startup_try (startup_id : Z) : M (option row) :=
  conn <- get_db_connection ;;
  cursor <- conn_cursor conn ;;
  cursor <- execute cursor (Sql.SelectStartupById startup_id) ;;
  '(startup, cursor) <- fetchone cursor ;;
  close conn ;;
  match startup with
  | Some startup => ret (Some (dict startup))
  | None => ret None
  end.

Definition get_startup (startup_id : Z) : M (option row) :=
  try_except (get_startup_try startup_id)
    (fun e => logging_error "Error getting startup" [PyInt startup_id] e ;; ret None).

(** get_startups_by_owner, lines 180-197 *)
Definition get_startups_by_owner_try (owner_id : Z) : M (list row) :=
  conn <- get_db_connection ;;
  cursor <- conn_cursor conn ;;
  cursor <- execute cursor (Sql.SelectStartupsByOwner owner_id) ;;
  '(rows, cursor) <- fetchall cursor ;;
  let startups := map dict rows in
  close conn ;;
  ret startups.

Definition get_startups_by_owner (owner_id : Z) : M (list row) :=
  try_except (get_startups_by_owner_try owner_id)
    (fun e => logging_error "Error getting startups for owner" [PyInt owner_id] e ;; ret []).

(** The four paginated listings differ in the status literal, the default
    page size and the log text only; [startups_page_try] is their common
    try block. *)
Definition startups_page_try (status : string) (page per_page : Z) : M (list row * pyval) :=
  conn <- get_db_connection ;;
  cursor <- conn_cursor conn ;;
  cursor <- execute cursor (Sql.CountStartupsWithStatus status) ;;
  '(first, cursor) <- fetchone cursor ;;
  total <- item0 first ;;
  let offset := (page - 1) * per_page in
  cursor <- execute cursor (Sql.SelectStartupsWithStatus status per_page offset) ;;
  '(rows, cursor) <- fetchall cursor ;;
  let startups := map dict rows in
  close conn ;;
  ret (startups, total).

(** get_pending_startups, lines 199-222 *)
Definition get_pending_startups (page per_page : Z) : M (list row * pyval) :=
  try_except (startups_page_try "pending" page per_page)
    (fun e => logging_error "Error getting pending startups" [] e ;; ret ([], PyInt 0)).

(** get_active_startups, lines 224-247 *)
Definition get_active_startups (page per_page : Z) : M (list row * pyval) :=
  try_except (startups_page_try "active" page per_page)
    (fun e => logging_error "Error getting active startups" [] e ;; ret ([], PyInt 0)).

(** get_completed_startups, lines 509-532 *)
Definition get_completed_startups (page per_page : Z) : M (list row * pyval) :=
  try_except (startups_page_try "completed" page per_page)
    (fun e => logging_error "Error getting completed startups" [] e ;; ret ([], PyInt 0)).

(** get_rejected_startups, lines 534-557 *)
Definition get_rejected_startups (page per_page : Z) : M (list row * pyval) :=
  try_except (startups_page_try "rejected" page per_page)
    (fun e => logging_error "Error getting rejected startups" [] e ;; ret ([], PyInt 0)).

(** update_startup_status, lines 249-274 *)
Definition update_startup_status_try (startup_id : Z) (status : string) : M unit :=
  conn <- get_db_connection ;;
  cursor <- conn_cursor conn ;;
  cursor <-
    (if String.eqb status "active" then
       now <- datetime_now ;;
       execute cursor (Sql.UpdateStartupStatusStarted status now startup_id)
     else if String.eqb status "completed" then
       now <- datetime_now ;;
       execute cursor (Sql.UpdateStartupStatusEnded status now startup_id)
     else
       execute cursor (Sql.UpdateStartupStatus status startup_id)) ;;
  commit conn ;;
  close conn.

Definition update_startup_status (startup_id : Z) (status : string) : M unit :=
  try_except (update_startup_status_try startup_id status)
    (fun e => logging_error "Error updating startup status" [PyInt startup_id] e).

(** update_startup_results, lines 276-290 *)
Definition update_startup_results_try (startup_id : Z) (results : string) : M unit :=
  conn <- get_db_connection ;;
  cursor <- conn_cursor conn ;;
  cursor <- execute cursor (Sql.UpdateStartupResults results startup_id) ;;
  commit conn ;;
  close conn.

Definition update_startup_results (startup_id : Z) (results : string) : M unit :=
  try_except (update_startup_results_try startup_id results)
    (fun e => logging_error "Error updating startup results" [PyInt startup_id] e).

(** *** Startup members *)

(** add_startup_member, lines 294-324 *)
Definition add_startup_member_try (startup_id user_id : Z) : M pyval :=
  conn <- get_db_connection ;;
  cursor <- conn_cursor conn ;;
  cursor <- execute cursor (Sql.SelectMemberId startup_id user_id) ;;
  '(existing, cursor) <- fetchone cursor ;;
  match existing with
  | Some existing =>
      close conn ;;
      item "id" existing
  | None =>
      now <- datetime_now ;;
      cursor <- execute cursor (Sql.InsertMember startup_id user_id now) ;;
      let request_id := py_opt PyInt (c_lastrowid cursor) in
      commit conn ;;
      close conn ;;
      ret request_id
  end.

Definition add_startup_member (startup_id user_id : Z) : M pyval :=
  try_except (add_startup_member_try startup_id user_id)
    (fun e => logging_error "Error adding startup member" [] e ;; ret PyNone).

(** get_join_request_id, lines 326-345 *)
Definition get_join_request_id_try (startup_id user_id : Z) : M pyval :=
  conn <- get_db_connection ;;
  cursor <- conn_cursor conn ;;
  cursor <- execute cursor (Sql.SelectMemberId startup_id user_id) ;;
  '(request, cursor) <- fetchone cursor ;;
  close conn ;;
  match request with
  | Some request => item "id" request
  | None => ret PyNone
  end.

Definition get_join_request_id (startup_id user_id : Z) : M pyval :=
  try_except (get_join_request_id_try startup_id user_id)
    (fun e => logging_error "Error getting join request" [] e ;; ret PyNone).

(** update_join_request, lines 347-361 *)
Definition update_join_request_try (request_id : Z) (status : string) : M unit :=
  conn <- get_db_connection ;;
  cursor <- conn_cursor conn ;;
  cursor <- execute cursor (Sql.UpdateMemberStatus status request_id) ;;
  commit conn ;;
  close conn.

Definition update_join_request (request_id : Z) (status : string) : M unit :=
  try_except (update_join_request_try request_id status)
    (fun e => logging_error "Error updating join request" [PyInt request_id] e).

(** get_startup_members, lines 363-395 *)
Definition get_startup_members_try (startup_id page per_page : Z) : M (list row * pyval) :=
  conn <- get_db_connection ;;
  cursor <- conn_cursor conn ;;
  cursor <- execute cursor (Sql.CountAcceptedMembers startup_id) ;;
  '(first, cursor) <- fetchone cursor ;;
  total <- item0 first ;;
  let offset := (page - 1) * per_page in
  cursor <- execute cursor (Sql.SelectAcceptedMembers startup_id per_page offset) ;;
  '(rows, cursor) <- fetchall cursor ;;
  let members := map dict rows in
  close conn ;;
  ret (members, total).

Definition get_startup_members (startup_id page per_page : Z) : M (list row * pyval) :=
  try_except (get_startup_members_try startup_id page per_page)
    (fun e => logging_error "Error getting startup members" [PyInt startup_id] e ;;
              ret ([], PyInt 0)).

(** get_all_startup_members, lines 397-414 *)
Definition get_all_startup_members_try (startup_id : Z) : M (list pyval) :=
  conn <- get_db_connection ;;
  cursor <- conn_cursor conn ;;
  cursor <- execute cursor (Sql.SelectAcceptedMemberIds startup_id) ;;
  '(rows, cursor) <- fetchall cursor ;;
  members <- for_each (item "user_id") rows ;;
  close conn ;;
  ret members.

Definition get_all_startup_members (startup_id : Z) : M (list pyval) :=
  try_except (get_all_startup_members_try startup_id)
    (fun e => logging_error "Error getting all startup members" [PyInt startup_id] e ;;
              ret []).

(** *** Statistics *)

(** One COUNT query of get_statistics: execute, then fetchone()[0]. *)
Definition count_query (cur : cursor) (q : Sql.stmt) : M (pyval * cursor) :=
  cursor <- execute cur q ;;
  '(first, cursor) <- fetchone cursor ;;
  n <- item0 first ;;
  ret (n, cursor).

(** get_statistics, lines 418-454 *)
Definition get_statistics_try : M row :=
  conn <- get_db_connection ;;
  cursor <- conn_cursor conn ;;
  '(total_users, cursor) <- count_query cursor Sql.CountUsers ;;
  '(total_startups, cursor) <- count_query cursor Sql.CountStartups ;;
  '(active_startups, cursor) <- count_query cursor (Sql.CountStartupsWithStatus "active") ;;
  '(pending_startups, cursor) <- count_query cursor (Sql.CountStartupsWithStatus "pending") ;;
  '(completed_startups, cursor) <- count_query cursor (Sql.CountStartupsWithStatus "completed") ;;
  '(rejected_startups, cursor) <- count_query cursor (Sql.CountStartupsWithStatus "rejected") ;;
  close conn ;;
  ret [ ("total_users", total_users);
        ("total_startups", total_startups);
        ("active_startups", active_startups);
        ("pending_startups", pending_startups);
        ("completed_startups", completed_startups);
        ("rejected_startups", rejected_startups) ].

Definition get_statistics : M row :=
  try_except get_statistics_try
    (fun e => logging_error "Error getting statistics" [] e ;; ret []).

(** get_all_users, lines 456-469 *)
Definition get_all_users_try : M (list pyval) :=
  conn <- get_db_connection ;;
  cursor <- conn_cursor conn ;;
  cursor <- execute cursor Sql.SelectUserIds ;;
  '(rows, cursor) <- fetchall cursor ;;
  users <- for_each (item "user_id") rows ;;
  close conn ;;
  ret users.

Definition get_all_users : M (list pyval) :=
  try_except get_all_users_try
    (fun e => logging_error "Error getting all users" [] e ;; ret []).

(** get_recent_users, lines 471-488 *)
Definition get_recent_users_try (limit : Z) : M (list row) :=
  conn <- get_db_connection ;;
  cursor <- conn_cursor conn ;;
  cursor <- execute cursor (Sql.SelectRecentUsers limit) ;;
  '(rows, cursor) <- fetchall cursor ;;
  let users := map dict rows in
  close conn ;;
  ret users.

Definition get_recent_users (limit : Z) : M (list row) :=
  try_except (get_recent_users_try limit)
    (fun e => logging_error "Error getting recent users" [] e ;; ret []).

(** get_recent_startups, lines 490-507 *)
Definition get_recent_startups_try (limit : Z) : M (list row) :=
  conn <- get_db_connection ;;
  cursor <- conn_cursor conn ;;
  cursor <- execute cursor (Sql.SelectRecentStartups limit) ;;
  '(rows, cursor) <- fetchall cursor ;;
  let startups := map dict rows in
  close conn ;;
  ret startups.

Definition get_recent_startups (limit : Z) : M (list row) :=
  try_except (get_recent_startups_try limit)
    (fun e => logging_error "Error getting recent startups" [] e ;; ret []).

(** *** The operations as one call surface *)

(** What a function of the module hands back to the bot. *)
Inductive retval :=
| RNothing                         (* no return statement *)
| RValue (v : pyval)               (* Optional[int] *)
| RRecord (r : option row)         (* Optional[Dict] *)
| RRows (l : list row)             (* List[Dict] *)
| RValues (l : list pyval)         (* List[int] *)
| RPage (p : list row * pyval)     (* Tuple[List[Dict], int] *)
| RMapping (d : row).              (* Dict *)

Inductive call :=
| GetUser (user_id : Z)
| SaveUser (user_id : Z) (username first_name : string)
| UpdateUserField (user_id : Z) (field value : string)
| CreateStartup (name description logo group_link : string) (owner_id : Z)
| GetStartup (startup_id : Z)
| GetStartupsByOwner (owner_id : Z)
| GetPendingStartups (page per_page : Z)
| GetActiveStartups (page per_page : Z)
| UpdateStartupStatus (startup_id : Z) (status : string)
| UpdateStartupResults (startup_id : Z) (results : string)
| AddStartupMember (startup_id user_id : Z)
| GetJoinRequestId (startup_id user_id : Z)
| UpdateJoinRequest (request_id : Z) (status : string)
| GetStartupMembers (startup_id page per_page : Z)
| GetAllStartupMembers (startup_id : Z)
| GetStatistics
| GetAllUsers
| GetRecentUsers (limit : Z)
| GetRecentStartups (limit : Z)
| GetCompletedStartups (page per_page : Z)
| GetRejectedStartups (page per_page : Z).

Definition returning {A} (inj : A -> retval) (m : M A) : M retval :=
  a <- m ;; ret (inj a).

Definition nothing (_ : unit) : retval := RNothing.

(** The call as the bot makes it. *)
Definition perform (c : call) : M retval :=
  match c with
  | GetUser u => returning RRecord (get_user u)
  | SaveUser u n f => returning nothing (save_user u n f)
  | UpdateUserField u f v => returning nothing (update_user_field u f v)
  | CreateStartup n d l g o => returning RValue (create_startup n d l g o)
  | GetStartup s => returning RRecord (get_startup s)
  | GetStartupsByOwner o => returning RRows (get_startups_by_owner o)
  | GetPendingStartups p n => returning RPage (get_pending_startups p n)
  | GetActiveStartups p n => returning RPage (get_active_startups p n)
  | UpdateStartupStatus s st => returning nothing (update_startup_status s st)
  | UpdateStartupResults s r => returning nothing (update_startup_results s r)
  | AddStartupMember s u => returning RValue (add_startup_member s u)
  | GetJoinRequestId s u => returning RValue (get_join_request_id s u)
  | UpdateJoinRequest r st => returning nothing (update_join_request r st)
  | GetStartupMembers s p n => returning RPage (get_startup_members s p n)
  | GetAllStartupMembers s => returning RValues (get_all_startup_members s)
  | GetStatistics => returning RMapping get_statistics
  | GetAllUsers => returning RValues get_all_users
  | GetRecentUsers l => returning RRows (get_recent_users l)
  | GetRecentStartups l => returning RRows (get_recent_startups l)
  | GetCompletedStartups p n => returning RPage (get_completed_startups p n)
  | GetRejectedStartups p n => returning RPage (get_rejected_startups p n)
  end.



(** ** Properties of worlds and stores used in the statements *)

(** The engine fails at no call. *)
Definition calm (w : world) : Prop := forall n, faults w n = false.

(** UNIQUE(user_id) on users. *)
Definition unique_user_ids (st : store) : Prop := NoDup (map u_user_id (users st)).

(** UNIQUE(startup_id, user_id) on startup_members. *)
Definition unique_requests (st : store) : Prop :=
  NoDup (map (fun m => (m_startup_id m, m_user_id m)) (members st)).

(** The world once the engine call counted by [calls] is over. *)
Definition ticked (w : world) : world :=
  mkWorld (disk w) (conns w) (next_conn w) (faults w) (S (calls w))
    (clock w) (clock_reads w) (log w).

Definition view (t : option store) (w : world) : store :=
  match t with Some st => st | None => disk w end.

(** The paginated listings of startups by status. *)
Inductive listing := Pending | Active | Completed | Rejected.

Definition listing_status (l : listing) : string :=
  match l with
  | Pending => "pending"
  | Active => "active"
  | Completed => "completed"
  | Rejected => "rejected"
  end.

Definition run_listing (l : listing) : Z -> Z -> M (list row * pyval) :=
  match l with
  | Pending => get_pending_startups
  | Active => get_active_startups
  | Completed => get_completed_startups
  | Rejected => get_rejected_startups
  end.

(** The world after a sequence of save_user calls. *)
Fixpoint after_saves (l : list (Z * string * string)) (w : world) : world :=
  match l with
  | [] => w
  | (user_id, username, first_name) :: l' =>
      after_saves l' (the_world (save_user user_id username first_name w))
  end.


(** The database [st] with no connection open, an engine that never fails
    and a clock that advances by one at each reading. *)
Definition quiet_world (st : store) : world :=
  mkWorld st [] 0 (fun _ => false) 0 (fun n => 1000 + Z.of_nat n) 0 [].

(** The same, with the engine failing at its [n]-th call. *)
Definition faulty_world (st : store) (n : nat) : world :=
  mkWorld st [] 0 (fun k => Nat.eqb k n) 0 (fun n => 1000 + Z.of_nat n) 0 [].

(** The statement update_startup_status sends for a target status, lines
    255-269. *)
Definition status_update (startup_id : Z) (status : string) (now : timestamp) : Sql.stmt :=
  if String.eqb status "active" then Sql.UpdateStartupStatusStarted status now startup_id
  else if String.eqb status "completed" then Sql.UpdateStartupStatusEnded status now startup_id
  else Sql.UpdateStartupStatus status startup_id.

(** A small database: two users, three startups, two join requests. *)
Definition sample_store : store :=
  mkStore
    [ mkUser 1 7 "ann" "Ann" "Lee" "+1" "f" "2000-01-01" "hello" 10;
      mkUser 2 8 "bob" "Bob" "" "" "" "" "" 11 ]
    2
    [ mkStartup 1 "alpha" "first" (Some "a.png") "t.me/a" 7 "pending" "" 20 None None;
      mkStartup 2 "beta" "second" (Some "b.png") "t.me/b" 7 "active" "" 21 (Some 30) None;
      mkStartup 3 "gamma" "third" (Some "c.png") "t.me/c" 8 "completed" "done" 22
        (Some 31) (Some 32) ]
    3
    [ mkMember 1 2 8 "accepted" 40;
      mkMember 2 2 7 "pending" 41 ]
    2.


(** Seven pending startups and nothing else. *)
Definition seven_pending : store :=
  mkStore [] 0
    (map (fun i => mkStartup (Z.of_nat i) "s" "d" None "t.me/s" 7 "pending" ""
                     (100 + Z.of_nat i) None None)
         (seq 1 7))
    7 [] 0.

(** Connection handles are handed out in increasing order, so the handles
    of the open connections are below the next one. *)
Definition fresh_handles (w : world) : Prop :=
  forall c, In c (conns w) -> (fst c < next_conn w)%nat.

(** Modelled from the spec: the known-safe set of column names to which the
    callers of update_user_field restrict [field].  The callers are not part
    of the sources, and the specification does not list the set; it is taken
    to be the profile columns of users that hold a str as it is bound. *)
Definition known_safe_fields : list string :=
  [ "username"; "first_name"; "last_name"; "phone"; "gender"; "birth_date"; "bio" ].

(** The calls that send SELECT statements only. *)
Definition read_only (c : call) : bool :=
  match c with
  | SaveUser _ _ _ | UpdateUserField _ _ _ | CreateStartup _ _ _ _ _
  | UpdateStartupStatus _ _ | UpdateStartupResults _ _
  | AddStartupMember _ _ | UpdateJoinRequest _ _ => false
  | _ => true
  end.

(** The PRIMARY KEY and UNIQUE constraints of the three tables. *)
Definition constraints_hold (st : store) : Prop :=
  NoDup (map u_id (users st)) /\
  unique_user_ids st /\
  NoDup (map s_id (startups st)) /\
  NoDup (map m_id (members st)) /\
  unique_requests st.

(** The world after a sequence of calls. *)
Fixpoint after_calls (l : list call) (w : world) : world :=
  match l with
  | [] => w
  | c :: l' => after_calls l' (the_world (perform c w))
  end.

(** Whether the engine fails at one of the [n] engine calls that follow. *)
Definition fails_within (n : nat) (w : world) : bool :=
  existsb (fun i => faults w (i + calls w)%nat) (seq 0 n).

(** What no statement of the module changes between two worlds: the fault
    schedule stays, and connection handles are never handed out again. *)
Definition steady (w w' : world) : Prop :=
  faults w' = faults w /\ (next_conn w <= next_conn w')%nat.

Definition keeps_steady {A} (m : M A) : Prop := forall w, steady w (the_world (m w)).


(** The rows that a paginated listing returns for a page. *)
Definition page_of (l : listing) (page per_page : Z) (w : world) : list row :=
  match the_outcome (run_listing l page per_page w) with
  | Returned (rows, _) => rows
  | Raised _ => []
  end.

(** * Proofs *)

(** ** Stepping through a run *)

Lemma bind_returned {A B} (m : M A) (k : A -> M B) w a w' :
  m w = (Returned a, w') -> bind m k w = k a w'.
Proof. intros E. unfold bind. now rewrite E. Qed.

Lemma bind_raised {A B} (m : M A) (k : A -> M B) w e w' :
  m w = (Raised e, w') -> bind m k w = (Raised e, w').
Proof. intros E. unfold bind. now rewrite E. Qed.

Lemma bind_assoc {A B C} (m : M A) (f : A -> M B) (k : B -> M C) w :
  bind (bind m f) k w = bind m (fun a => bind (f a) k) w.
Proof. unfold bind. destruct (m w) as [[a | e] w']; reflexivity. Qed.

Lemma engine_call_ok w :
  faults w (calls w) = false -> engine_call w = (Returned tt, ticked w).
Proof. intros E. unfold engine_call. now rewrite E. Qed.

Lemma engine_call_fail w :
  faults w (calls w) = true -> engine_call w = (Raised (EngineFault (calls w)), ticked w).
Proof. intros E. unfold engine_call. now rewrite E. Qed.

Lemma connect_ok w :
  faults w (calls w) = false ->
  get_db_connection w =
    (Returned (next_conn w),
     mkWorld (disk w) ((next_conn w, None) :: conns w) (S (next_conn w))
       (faults w) (S (calls w)) (clock w) (clock_reads w) (log w)).
Proof.
  intros E. unfold get_db_connection.
  now rewrite (bind_returned _ _ _ _ _ (engine_call_ok w E)).
Qed.

Lemma cursor_ok conn w t :
  faults w (calls w) = false -> txn_of conn (conns w) = Some t ->
  conn_cursor conn w = (Returned (mkCursor conn [] None), ticked w).
Proof.
  intros E T. unfold conn_cursor.
  rewrite (bind_returned _ _ _ _ _ (engine_call_ok w E)).
  cbn [ticked conns]. now rewrite T.
Qed.

Lemma execute_ok cur q w t a :
  faults w (calls w) = false -> txn_of (c_conn cur) (conns w) = Some t ->
  Sql.run q (view t w) = inr a ->
  execute cur q w =
    (Returned (mkCursor (c_conn cur) (Sql.a_rows a)
                 (match Sql.a_lastrowid a with
                  | Some i => Some i
                  | None => c_lastrowid cur
                  end)),
     if Sql.writes q
     then with_conns (set_txn (c_conn cur) (Some (Sql.a_store a)) (conns w)) (ticked w)
     else ticked w).
Proof.
  intros E T R. unfold execute.
  rewrite (bind_returned _ _ _ _ _ (engine_call_ok w E)).
  cbn [ticked conns disk]. rewrite T. unfold view in R. rewrite R. reflexivity.
Qed.

Lemma fetchone_ok cur w :
  faults w (calls w) = false ->
  fetchone cur w =
    (Returned (match c_rows cur with
               | [] => (None, cur)
               | r :: rest => (Some r, mkCursor (c_conn cur) rest (c_lastrowid cur))
               end), ticked w).
Proof.
  intros E. unfold fetchone.
  rewrite (bind_returned _ _ _ _ _ (engine_call_ok w E)).
  now destruct (c_rows cur).
Qed.

Lemma fetchall_ok cur w :
  faults w (calls w) = false ->
  fetchall cur w =
    (Returned (c_rows cur, mkCursor (c_conn cur) [] (c_lastrowid cur)), ticked w).
Proof.
  intros E. unfold fetchall.
  now rewrite (bind_returned _ _ _ _ _ (engine_call_ok w E)).
Qed.

Lemma commit_ok conn w t :
  faults w (calls w) = false -> txn_of conn (conns w) = Some t ->
  commit conn w =
    (Returned tt,
     match t with
     | Some st => with_disk st (with_conns (set_txn conn None (conns w)) (ticked w))
     | None => ticked w
     end).
Proof.
  intros E T. unfold commit.
  rewrite (bind_returned _ _ _ _ _ (engine_call_ok w E)).
  cbn [ticked conns]. rewrite T. now destruct t.
Qed.

Lemma close_ok conn w :
  faults w (calls w) = false ->
  close conn w = (Returned tt, with_conns (drop_conn conn (conns w)) (ticked w)).
Proof.
  intros E. unfold close.
  now rewrite (bind_returned _ _ _ _ _ (engine_call_ok w E)).
Qed.

(** A failing engine call raises, whatever the primitive. *)
Lemma guarded_fail {A} (rest : M A) w :
  faults w (calls w) = true ->
  (engine_call ;; rest) w = (Raised (EngineFault (calls w)), ticked w).
Proof. intros E. now rewrite (bind_raised _ _ _ _ _ (engine_call_fail w E)). Qed.

Ltac world_simpl :=
  cbv beta delta [ticked with_disk with_conns view];
  cbn [disk conns next_conn faults calls clock
       clock_reads log c_conn c_rows c_lastrowid txn_of set_txn Sql.writes
       Sql.a_store Sql.a_rows Sql.a_lastrowid Sql.reads Sql.run fst snd
       the_outcome the_world];
  rewrite ?Nat.eqb_refl.

Ltac side H := world_simpl; first [ apply H | reflexivity ].

Ltac prim_ok H :=
  first
    [ apply connect_ok; side H
    | eapply cursor_ok; side H
    | eapply execute_ok; side H
    | apply fetchone_ok; side H
    | apply fetchall_ok; side H
    | eapply commit_ok; side H
    | apply close_ok; side H
    | reflexivity ].

(** One statement of the try block, when the engine does not fail at it. *)
Ltac step H :=
  rewrite ?bind_assoc;
  lazymatch goal with
  | |- context [bind ?m ?k ?w] =>
      let E := fresh "E" in
      eassert (E : m w = (Returned _, _)) by prim_ok H;
      rewrite (bind_returned m k w _ _ E); clear E; world_simpl
  end.

(** The last statement of the try block. *)
Ltac last_step H :=
  lazymatch goal with
  | |- context [match ?m ?w with _ => _ end] =>
      let E := fresh "E" in
      eassert (E : m w = (Returned _, _)) by prim_ok H;
      rewrite E; clear E; world_simpl
  end.

(** ** Failures of the engine never reach the caller *)




(** init_db is not one of these operations: it has no try block, and a
    failure of the engine while the schema is created reaches its caller. *)
Remark init_db_raises :
  the_outcome (init_db (faulty_world empty_store 0)) = Raised (EngineFault 0).
Proof. reflexivity. Qed.

(** One statement of the try block under any fault schedule: either the
    engine fails at it and the except clause runs, or the run goes on. *)
Ltac handler_runs :=
  cbv beta iota delta [logging_error bind ret]; world_simpl.

Ltac pure_step :=
  rewrite ?bind_assoc;
  lazymatch goal with
  | |- context [bind ?m ?k ?w] =>
      let E := fresh "E" in
      eassert (E : m w = (Returned _, _)) by reflexivity;
      rewrite (bind_returned m k w _ _ E); clear E; world_simpl
  end.

Ltac fork :=
  rewrite ?bind_assoc;
  lazymatch goal with
  | |- context [bind ?m ?k ?w] =>
      let b := eval cbn in (faults w (calls w)) in
      let F := fresh "F" in
      destruct b eqn:F;
      [ let E := fresh "E" in
        eassert (E : m w = (Raised _, _))
          by (apply guarded_fail; world_simpl; exact F);
        rewrite (bind_raised m k w _ _ E); clear E; handler_runs
      | let E := fresh "E" in
        eassert (E : m w = (Returned _, _)) by prim_ok F;
        rewrite (bind_returned m k w _ _ E); clear E; world_simpl ]
  end.

Ltac last_fork :=
  lazymatch goal with
  | |- context [match ?m ?w with _ => _ end] =>
      let b := eval cbn in (faults w (calls w)) in
      let F := fresh "F" in
      destruct b eqn:F;
      [ let E := fresh "E" in
        eassert (E : m w = (Raised _, _))
          by (apply guarded_fail; world_simpl; exact F);
        rewrite E; clear E; handler_runs
      | let E := fresh "E" in
        eassert (E : m w = (Returned _, _)) by prim_ok F;
        rewrite E; clear E; world_simpl ]
  end.

Ltac ran := eexists; repeat split; try reflexivity; auto.

Ltac run_calm H := repeat step H; try last_step H.

Ltac run_any := repeat first [ pure_step | fork; [ran |] ]; last_fork; ran.

(** ** What each operation does when the engine does not fail *)

Lemma save_user_run uid un fn w :
  calm w ->
  exists w',
    save_user uid un fn w = (Returned tt, w') /\
    faults w' = faults w /\
    disk w' =
      Sql.store_after (Sql.InsertOrReplaceUser uid un fn (clock w (clock_reads w))) (disk w).
Proof.
  intros H. destruct w as [d cs nc fl k clk rd lg]. unfold calm in H. cbn in H.
  unfold save_user, save_user_try, try_except.
  run_calm H. ran.
Qed.

Lemma save_user_any uid un fn w :
  exists w',
    save_user uid un fn w = (Returned tt, w') /\
    faults w' = faults w /\
    (disk w' = disk w \/
     disk w' =
       Sql.store_after (Sql.InsertOrReplaceUser uid un fn (clock w (clock_reads w))) (disk w)).
Proof.
  destruct w as [d cs nc fl k clk rd lg].
  unfold save_user, save_user_try, try_except.
  run_any.
Qed.

Lemma update_startup_status_run id status w :
  calm w ->
  exists w',
    update_startup_status id status w = (Returned tt, w') /\
    faults w' = faults w /\
    disk w' = Sql.store_after (status_update id status (clock w (clock_reads w))) (disk w).
Proof.
  intros H. destruct w as [d cs nc fl k clk rd lg]. unfold calm in H. cbn in H.
  unfold update_startup_status, update_startup_status_try, try_except, status_update.
  do 2 step H.
  destruct (String.eqb status "active"); [| destruct (String.eqb status "completed")];
    run_calm H; ran.
Qed.




Lemma update_user_field_run uid field value c w :
  calm w -> Sql.column_of field = Some c ->
  exists w',
    update_user_field uid field value w = (Returned tt, w') /\
    disk w' =
      Sql.set_users (disk w)
        (Sql.update_where (fun u => u_user_id u =? uid) (Sql.set_column c value)
           (users (disk w)))
        (users_seq (disk w)).
Proof.
  intros H C. destruct w as [d cs nc fl k clk rd lg]. unfold calm in H. cbn in H.
  unfold update_user_field, update_user_field_try, try_except.
  do 2 step H.
  lazymatch goal with
  | |- context [bind ?m ?k ?w] =>
      let E := fresh "E" in
      eassert (E : m w = (Returned _, _))
        by (eapply execute_ok; [apply H | side H | cbn; rewrite C; reflexivity]);
      rewrite (bind_returned m k w _ _ E); clear E; world_simpl
  end.
  step H. last_step H. ran.
Qed.

Lemma map_dict (l : list row) : map dict l = l.
Proof. unfold dict. apply map_id. Qed.

Lemma startups_page_run status page per_page w :
  calm w ->
  exists w',
    startups_page_try status page per_page w =
      (Returned
         (map startup_row
            (Sql.limit_offset per_page ((page - 1) * per_page)
               (Sql.order_by_desc s_created_at
                  (filter (Sql.with_status status) (startups (disk w))))),
          PyInt (Sql.count (filter (Sql.with_status status) (startups (disk w))))),
       w') /\
    disk w' = disk w.
Proof.
  intros H. destruct w as [d cs nc fl k clk rd lg]. unfold calm in H. cbn in H.
  unfold startups_page_try.
  do 4 step H. cbn [count_row item0]. do 4 step H.
  rewrite map_dict. ran.
Qed.


Lemma for_each_user_id {A} (f : A -> Z) (l : list A) w :
  for_each (item "user_id") (map (fun x => user_id_row (f x)) l) w =
    (Returned (map (fun x => PyInt (f x)) l), w).
Proof.
  induction l as [| x l IH]; [reflexivity |].
  cbn [map for_each].
  rewrite (bind_returned _ _ w (PyInt (f x)) w) by reflexivity.
  rewrite (bind_returned _ _ w _ w IH). reflexivity.
Qed.

Lemma get_all_startup_members_run sid w :
  calm w ->
  exists w',
    get_all_startup_members sid w =
      (Returned
         (map (fun m => PyInt (m_user_id m))
            (filter (Sql.accepted_in sid) (members (disk w)))),
       w').
Proof.
  intros H. destruct w as [d cs nc fl k clk rd lg]. unfold calm in H. cbn in H.
  unfold get_all_startup_members, get_all_startup_members_try, try_except.
  do 4 step H.
  lazymatch goal with
  | |- context [bind ?m ?k ?w] =>
      rewrite (bind_returned m k w _ _ (for_each_user_id _ _ _)); world_simpl
  end.
  step H. ran.
Qed.


Lemma get_statistics_run w :
  calm w ->
  exists w',
    get_statistics w =
      (Returned
         [ ("total_users", PyInt (Sql.count (users (disk w))));
           ("total_startups", PyInt (Sql.count (startups (disk w))));
           ("active_startups",
            PyInt (Sql.count (filter (Sql.with_status "active") (startups (disk w)))));
           ("pending_startups",
            PyInt (Sql.count (filter (Sql.with_status "pending") (startups (disk w)))));
           ("completed_startups",
            PyInt (Sql.count (filter (Sql.with_status "completed") (startups (disk w)))));
           ("rejected_startups",
            PyInt (Sql.count (filter (Sql.with_status "rejected") (startups (disk w))))) ],
       w').
Proof.
  intros H. destruct w as [d cs nc fl k clk rd lg]. unfold calm in H. cbn in H.
  unfold get_statistics, get_statistics_try, try_except, count_query.
  do 2 step H.
  do 6 (do 2 step H; cbn [count_row item0]; do 2 step H).
  step H. ran.
Qed.

Lemma existsb_filter_nil {A} (p : A -> bool) (l : list A) :
  filter p l = [] -> existsb p l = false.
Proof.
  induction l as [| x l IH]; [reflexivity |].
  cbn. destruct (p x); [discriminate | exact IH].
Qed.



(** ** Status transitions of a startup *)

Lemma nth_error_update_where {A} (hit : A -> bool) (f : A -> A) (l : list A) i x :
  nth_error l i = Some x ->
  nth_error (Sql.update_where hit f l) i = Some (if hit x then f x else x).
Proof.
  intros E. unfold Sql.update_where.
  exact (map_nth_error (fun y => if hit y then f y else y) i l E).
Qed.

(** C2. update_startup_status on a stored startup: target 'active' sets the
    status and a non-null started_at and keeps ended_at; target 'completed'
    sets the status and a non-null ended_at and keeps started_at; any other
    target changes the status column only. *)
Theorem update_startup_status_timestamps (w : world) (startup_id : Z) (status : string)
        (i : nat) (s : startup) :
  calm w ->
  nth_error (startups (disk w)) i = Some s ->
  s_id s = startup_id ->
  exists s',
    nth_error (startups (disk (the_world (update_startup_status startup_id status w)))) i
      = Some s' /\
    s_id s' = startup_id /\
    s_status s' = status /\
    (status = "active" ->
       s_started_at s' = Some (clock w (clock_reads w)) /\ s_ended_at s' = s_ended_at s) /\
    (status = "completed" ->
       s_ended_at s' = Some (clock w (clock_reads w)) /\ s_started_at s' = s_started_at s) /\
    (status <> "active" -> status <> "completed" -> s' = Sql.set_status status s).
Proof.
  intros H Hi Hid.
  destruct (update_startup_status_run startup_id status w H) as (w' & E & _ & D).
  rewrite E. cbn [the_world snd]. rewrite D. clear E D.
  unfold status_update, Sql.store_after.
  destruct (String.eqb_spec status "active") as [Ea | Na];
    [| destruct (String.eqb_spec status "completed") as [Ec | Nc]];
    cbn [Sql.run Sql.a_store Sql.set_startups startups];
    rewrite (nth_error_update_where _ _ _ _ _ Hi), Hid, Z.eqb_refl;
    eexists; (split; [reflexivity |]); cbn.
  - subst status. repeat split; try assumption; try discriminate; intros; congruence.
  - subst status. repeat split; try assumption; try discriminate; intros; congruence.
  - repeat split; try assumption; intros; congruence.
Qed.

(** Startup 1 of the sample database, pending, is moved to 'active'. *)
Lemma update_startup_status_timestamps_witness :
  exists s',
    nth_error
      (startups (disk (the_world (update_startup_status 1 "active" (quiet_world sample_store)))))
      0 = Some s' /\
    s_status s' = "active" /\ s_started_at s' = Some 1000 /\ s_ended_at s' = None.
Proof.
  destruct (update_startup_status_timestamps (quiet_world sample_store) 1 "active" 0
              (mkStartup 1 "alpha" "first" (Some "a.png") "t.me/a" 7 "pending" "" 20 None None)
              (fun n => eq_refl) eq_refl eq_refl)
    as (s' & E & _ & St & A & _).
  exists s'. destruct (A eq_refl) as [B C].
  repeat split; assumption.
Defined.

(** ** Join requests *)

Lemma member_of_true sid uid m :
  Sql.member_of sid uid m = true <-> m_startup_id m = sid /\ m_user_id m = uid.
Proof.
  unfold Sql.member_of. rewrite andb_true_iff, !Z.eqb_eq. tauto.
Qed.

Lemma calm_same w w' : faults w' = faults w -> calm w -> calm w'.
Proof. intros E H n. rewrite E. apply H. Qed.

Lemma filter_absent_key sid uid (l : list member) :
  ~ In (sid, uid) (map (fun m => (m_startup_id m, m_user_id m)) l) ->
  filter (Sql.member_of sid uid) l = [].
Proof.
  induction l as [| x l IH]; intros N; [reflexivity |].
  cbn [filter]. destruct (Sql.member_of sid uid x) eqn:E.
  - apply member_of_true in E. destruct E as [E1 E2].
    exfalso. apply N. left. now rewrite E1, E2.
  - apply IH. intros I. apply N. now right.
Qed.





(** ** Saving a user *)

Lemma filter_out_then_in {A} (p : A -> bool) (l : list A) :
  filter p (filter (fun x => negb (p x)) l) = [].
Proof.
  induction l as [| x l IH]; [reflexivity |].
  cbn [filter]. destruct (p x) eqn:E; cbn [negb filter]; [exact IH |].
  now rewrite E.
Qed.

Lemma filter_absent_user_id uid (l : list user) :
  ~ In uid (map u_user_id l) -> filter (fun u => u_user_id u =? uid) l = [].
Proof.
  induction l as [| x l IH]; intros N; [reflexivity |].
  cbn [filter]. destruct (Z.eqb_spec (u_user_id x) uid) as [E | E].
  - exfalso. apply N. now left.
  - apply IH. intros I. apply N. now right.
Qed.

Lemma unique_user_ids_at_most_one uid (l : list user) :
  NoDup (map u_user_id l) ->
  (List.length (filter (fun u => (u_user_id u =? uid)%Z) l) <= 1)%nat.
Proof.
  induction l as [| x l IH]; intros N; [cbn; lia |].
  cbn [map] in N. inversion N as [| k ks Nin N' Eq]; subst.
  cbn [filter]. destruct (Z.eqb_spec (u_user_id x) uid) as [E | E].
  - rewrite E in Nin. rewrite (filter_absent_user_id uid l Nin). cbn. lia.
  - now apply IH.
Qed.

Lemma upsert_keeps_unique uid (l : list user) (new : user) :
  u_user_id new = uid ->
  NoDup (map u_user_id l) ->
  NoDup (map u_user_id (filter (fun u => negb (u_user_id u =? uid)) l ++ [new])).
Proof.
  intros En. induction l as [| x l IH]; intros N.
  - cbn. constructor; [intros [] | constructor].
  - cbn [map] in N. inversion N as [| k ks Nin N' Eq]; subst.
    cbn [filter]. destruct (Z.eqb_spec (u_user_id x) (u_user_id new)) as [E | E];
      cbn [negb]; [now apply IH |].
    cbn [app map]. constructor; [| now apply IH].
    rewrite map_app. intros I. apply in_app_or in I. destruct I as [I | I].
    + apply Nin. apply in_map_iff in I. destruct I as (y & Ey & Iy).
      apply filter_In in Iy. apply in_map_iff. exists y. tauto.
    + cbn in I. destruct I as [I | []]. now apply E.
Qed.

Lemma save_user_keeps_unique uid un fn w :
  unique_user_ids (disk w) ->
  unique_user_ids (disk (the_world (save_user uid un fn w))).
Proof.
  intros U. destruct (save_user_any uid un fn w) as (w' & E & _ & [D | D]);
    rewrite E; cbn [the_world snd]; rewrite D; [exact U |].
  unfold unique_user_ids, Sql.store_after. cbn [Sql.run Sql.a_store Sql.set_users users].
  now apply upsert_keeps_unique.
Qed.

Lemma after_saves_keeps_unique saves w :
  unique_user_ids (disk w) -> unique_user_ids (disk (after_saves saves w)).
Proof.
  revert w. induction saves as [| [[uid un] fn] saves IH]; intros w U; [exact U |].
  cbn [after_saves]. apply IH. now apply save_user_keeps_unique.
Qed.

(** C4. After any sequence of save_user calls there is at most one users
    row for a user_id, and a save_user call leaves for its user_id the one
    row it has just written: the passed username and first_name, the empty
    string in last_name, phone, gender, birth_date and bio, and the time of
    this call in joined_at, whatever the row held before. *)
Theorem save_user_replaces_row (w : world) (saves : list (Z * string * string))
        (user_id : Z) (username first_name : string) :
  unique_user_ids (disk w) ->
  (forall uid,
     (List.length (filter (fun u => (u_user_id u =? uid)%Z)
                     (users (disk (after_saves saves w)))) <= 1)%nat) /\
  (calm (after_saves saves w) ->
   In user_id (map u_user_id (users (disk (after_saves saves w)))) ->
   exists id,
     filter (fun u => u_user_id u =? user_id)
       (users (disk (the_world (save_user user_id username first_name (after_saves saves w)))))
     = [ mkUser id user_id username first_name "" "" "" "" ""
           (clock (after_saves saves w) (clock_reads (after_saves saves w))) ]).
Proof.
  intros U. split.
  - intros uid. apply unique_user_ids_at_most_one.
    now apply after_saves_keeps_unique.
  - intros H _. set (w1 := after_saves saves w) in *.
    destruct (save_user_run user_id username first_name w1 H) as (w' & E & _ & D).
    rewrite E. cbn [the_world snd]. rewrite D.
    unfold Sql.store_after. cbn [Sql.run Sql.a_store Sql.set_users users].
    eexists. rewrite filter_app.
    rewrite (filter_out_then_in (fun u => u_user_id u =? user_id)).
    cbn [filter app u_user_id]. rewrite Z.eqb_refl. reflexivity.
Qed.

Lemma sample_unique_user_ids : unique_user_ids sample_store.
Proof.
  unfold unique_user_ids. cbn.
  repeat constructor; cbn; intuition congruence.
Qed.

(** User 7 of the sample database, who has a last name, a phone and a bio,
    is saved again after two other saves. *)
Lemma save_user_replaces_row_witness :
  (List.length
     (filter (fun u => (u_user_id u =? 7)%Z)
        (users (disk (after_saves [(9%Z, "cy", "Cy"); (7%Z, "ann", "Ann")]
                        (quiet_world sample_store))))) <= 1)%nat /\
  exists id,
    filter (fun u => u_user_id u =? 7)
      (users (disk (the_world
                      (save_user 7 "anna" "Anna"
                         (after_saves [(9, "cy", "Cy"); (7, "ann", "Ann")]
                            (quiet_world sample_store))))))
    = [ mkUser id 7 "anna" "Anna" "" "" "" "" "" 1002 ].
Proof.
  destruct (save_user_replaces_row (quiet_world sample_store)
              [(9, "cy", "Cy"); (7, "ann", "Ann")] 7 "anna" "Anna"
              sample_unique_user_ids) as [A B].
  split; [apply A |].
  apply B.
  - intros n. reflexivity.
  - vm_compute. tauto.
Defined.

(** ** Paginated listings *)

Lemma insert_desc_perm {A} (key : A -> Z) (x : A) (l : list A) :
  Permutation (Sql.insert_desc key x l) (x :: l).
Proof.
  induction l as [| y l IH]; [reflexivity |].
  cbn [Sql.insert_desc]. destruct (key x <? key y); [| reflexivity].
  rewrite IH. apply perm_swap.
Qed.

Lemma order_by_desc_perm {A} (key : A -> Z) (l : list A) :
  Permutation (Sql.order_by_desc key l) l.
Proof.
  induction l as [| x l IH]; [reflexivity |].
  cbn [Sql.order_by_desc fold_right]. rewrite insert_desc_perm.
  now constructor.
Qed.



Lemma listing_run (l : listing) (page per_page : Z) (w : world) :
  calm w ->
  the_outcome (run_listing l page per_page w) =
    Returned
      (map startup_row
         (Sql.limit_offset per_page ((page - 1) * per_page)
            (Sql.order_by_desc s_created_at
               (filter (Sql.with_status (listing_status l)) (startups (disk w))))),
       PyInt (Sql.count (filter (Sql.with_status (listing_status l)) (startups (disk w))))).
Proof.
  intros H.
  destruct l; cbn [run_listing listing_status];
    unfold get_pending_startups, get_active_startups, get_completed_startups,
      get_rejected_startups, try_except;
    match goal with
    | |- context [startups_page_try ?st page per_page w] =>
        destruct (startups_page_run st page per_page w H) as (w' & E & _); rewrite E
    end; reflexivity.
Qed.



(** Seven pending rows: page 2 of 5 has two rows, page 1 has five, and the
    total is 7 on both. *)
Example seven_pending_pages :
  match the_outcome (get_pending_startups 2 5 (quiet_world seven_pending)),
        the_outcome (get_pending_startups 1 5 (quiet_world seven_pending)) with
  | Returned (second, total2), Returned (first, total1) =>
      List.length second = 2%nat /\ List.length first = 5%nat /\
      total2 = PyInt 7 /\ total1 = PyInt 7
  | _, _ => False
  end.
Proof. vm_compute. repeat split. Qed.

(** ** Accepted members *)

Lemma accepted_in_true sid m :
  Sql.accepted_in sid m = true <-> m_startup_id m = sid /\ m_status m = "accepted".
Proof.
  unfold Sql.accepted_in. rewrite andb_true_iff, Z.eqb_eq, String.eqb_eq. tauto.
Qed.






(** ** Statistics *)

Lemma status_partition (l : list startup) :
  (forall s, In s l ->
     s_status s = "active" \/ s_status s = "pending" \/
     s_status s = "completed" \/ s_status s = "rejected") ->
  Sql.count l =
    Sql.count (filter (Sql.with_status "active") l) +
    Sql.count (filter (Sql.with_status "pending") l) +
    Sql.count (filter (Sql.with_status "completed") l) +
    Sql.count (filter (Sql.with_status "rejected") l).
Proof.
  unfold Sql.count, Sql.with_status.
  induction l as [| x l IH]; intros Hs; [reflexivity |].
  assert (IH' := IH (fun s I => Hs s (or_intror I))).
  assert (Hx := Hs x (or_introl eq_refl)).
  cbn [filter].
  destruct (String.eqb_spec (s_status x) "active") as [Ea | Na];
    destruct (String.eqb_spec (s_status x) "pending") as [Ep | Np];
    destruct (String.eqb_spec (s_status x) "completed") as [Ec | Nc];
    destruct (String.eqb_spec (s_status x) "rejected") as [Er | Nr];
    cbn [List.length]; try congruence; try lia; tauto.
Qed.

(** C7. When every startup has one of the four statuses, the snapshot of
    get_statistics has exactly the six counts, total_startups is the sum of
    the four counts by status, and total_users is the number of users rows. *)
Theorem statistics_add_up (w : world) :
  calm w ->
  (forall s, In s (startups (disk w)) ->
     s_status s = "active" \/ s_status s = "pending" \/
     s_status s = "completed" \/ s_status s = "rejected") ->
  exists total_users total_startups active pending completed rejected,
    the_outcome (get_statistics w) =
      Returned
        [ ("total_users", PyInt total_users);
          ("total_startups", PyInt total_startups);
          ("active_startups", PyInt active);
          ("pending_startups", PyInt pending);
          ("completed_startups", PyInt completed);
          ("rejected_startups", PyInt rejected) ] /\
    total_startups = active + pending + completed + rejected /\
    total_users = Z.of_nat (List.length (users (disk w))).
Proof.
  intros H Hs. destruct (get_statistics_run w H) as (w' & E).
  do 6 eexists. rewrite E. cbn [the_outcome fst].
  split; [reflexivity |]. split; [| reflexivity].
  now apply status_partition.
Qed.

Lemma statistics_add_up_witness :
  exists total_users total_startups active pending completed rejected,
    the_outcome (get_statistics (quiet_world sample_store)) =
      Returned
        [ ("total_users", PyInt total_users);
          ("total_startups", PyInt total_startups);
          ("active_startups", PyInt active);
          ("pending_startups", PyInt pending);
          ("completed_startups", PyInt completed);
          ("rejected_startups", PyInt rejected) ] /\
    total_startups = active + pending + completed + rejected /\
    total_users = 2.
Proof.
  apply (statistics_add_up (quiet_world sample_store)).
  - intros n. reflexivity.
  - cbn. intros s [<- | [<- | [<- | []]]]; cbn; tauto.
Defined.

(** ** Updating one field of a user *)

Lemma set_column_frame (c : Sql.text_column) (value : string) (u : user) :
  Sql.get_column c (Sql.set_column c value u) = value /\
  (forall c', c' <> c ->
     Sql.get_column c' (Sql.set_column c value u) = Sql.get_column c' u) /\
  u_id (Sql.set_column c value u) = u_id u /\
  u_user_id (Sql.set_column c value u) = u_user_id u /\
  u_joined_at (Sql.set_column c value u) = u_joined_at u.
Proof.
  destruct c; cbn; repeat split; intros c' N; destruct c'; cbn; congruence.
Qed.

Lemma update_user_field_column (w : world) (user_id : Z) (field value : string)
      (c : Sql.text_column) :
  calm w ->
  Sql.column_of field = Some c ->
  the_outcome (update_user_field user_id field value w) = Returned tt /\
  (forall i u,
     nth_error (users (disk w)) i = Some u ->
     exists u',
       nth_error (users (disk (the_world (update_user_field user_id field value w)))) i
         = Some u' /\
       (u_user_id u <> user_id -> u' = u) /\
       (u_user_id u = user_id ->
          Sql.get_column c u' = value /\
          (forall c', c' <> c -> Sql.get_column c' u' = Sql.get_column c' u) /\
          u_id u' = u_id u /\ u_user_id u' = u_user_id u /\ u_joined_at u' = u_joined_at u)) /\
  List.length (users (disk (the_world (update_user_field user_id field value w))))
    = List.length (users (disk w)) /\
  users_seq (disk (the_world (update_user_field user_id field value w))) = users_seq (disk w) /\
  startups (disk (the_world (update_user_field user_id field value w))) = startups (disk w) /\
  startups_seq (disk (the_world (update_user_field user_id field value w)))
    = startups_seq (disk w) /\
  members (disk (the_world (update_user_field user_id field value w))) = members (disk w) /\
  members_seq (disk (the_world (update_user_field user_id field value w)))
    = members_seq (disk w).
Proof.
  intros H C.
  destruct (update_user_field_run user_id field value c w H C) as (w' & E & D).
  rewrite E. cbn [the_outcome the_world fst snd]. rewrite D.
  cbn [Sql.set_users users users_seq startups startups_seq members members_seq].
  split; [reflexivity |].
  split; [| split; [unfold Sql.update_where; apply length_map | repeat split]].
  intros i u Hi.
  rewrite (nth_error_update_where _ _ _ _ _ Hi).
  eexists. split; [reflexivity |].
  destruct (Z.eqb_spec (u_user_id u) user_id) as [Eu | Nu].
  - split; [contradiction |]. intros _. apply set_column_frame.
  - split; [reflexivity | contradiction].
Qed.

Lemma known_safe_is_column field :
  In field known_safe_fields -> exists c, Sql.column_of field = Some c.
Proof.
  unfold known_safe_fields. cbn [In].
  intros [<- | [<- | [<- | [<- | [<- | [<- | [<- | []]]]]]]]; eexists; reflexivity.
Qed.

(** C8. update_user_field on a stored user and a known-safe column sets
    that column of the row of that user_id to the value; every other column
    of that row, every other users row, and the startups and startup_members
    tables stay as they were. *)
Theorem update_user_field_frame (w : world) (user_id : Z) (field value : string) :
  calm w ->
  In field known_safe_fields ->
  In user_id (map u_user_id (users (disk w))) ->
  exists c,
    Sql.column_of field = Some c /\
    the_outcome (update_user_field user_id field value w) = Returned tt /\
    (forall i u,
       nth_error (users (disk w)) i = Some u ->
       exists u',
         nth_error (users (disk (the_world (update_user_field user_id field value w)))) i
           = Some u' /\
         (u_user_id u <> user_id -> u' = u) /\
         (u_user_id u = user_id ->
            Sql.get_column c u' = value /\
            (forall c', c' <> c -> Sql.get_column c' u' = Sql.get_column c' u) /\
            u_id u' = u_id u /\ u_user_id u' = u_user_id u /\
            u_joined_at u' = u_joined_at u)) /\
    List.length (users (disk (the_world (update_user_field user_id field value w))))
      = List.length (users (disk w)) /\
    users_seq (disk (the_world (update_user_field user_id field value w)))
      = users_seq (disk w) /\
    startups (disk (the_world (update_user_field user_id field value w)))
      = startups (disk w) /\
    startups_seq (disk (the_world (update_user_field user_id field value w)))
      = startups_seq (disk w) /\
    members (disk (the_world (update_user_field user_id field value w)))
      = members (disk w) /\
    members_seq (disk (the_world (update_user_field user_id field value w)))
      = members_seq (disk w).
Proof.
  intros H K _. destruct (known_safe_is_column field K) as [c C].
  exists c. split; [exact C |].
  now apply update_user_field_column.
Qed.

(** The bio of user 7 of the sample database is rewritten. *)
Lemma update_user_field_frame_witness :
  the_outcome (update_user_field 7 "bio" "builder" (quiet_world sample_store)) = Returned tt /\
  disk (the_world (update_user_field 7 "bio" "builder" (quiet_world sample_store))) =
    Sql.set_users sample_store
      [ mkUser 1 7 "ann" "Ann" "Lee" "+1" "f" "2000-01-01" "builder" 10;
        mkUser 2 8 "bob" "Bob" "" "" "" "" "" 11 ] 2.
Proof.
  split.
  - destruct (update_user_field_frame (quiet_world sample_store) 7 "bio" "builder")
      as (c & _ & E & _).
    + intros n. reflexivity.
    + vm_compute. tauto.
    + vm_compute. tauto.
    + exact E.
  - reflexivity.
Defined.

(** ** Updates that match no row *)







(** ** Connections *)

Lemma drop_conn_head h t cs : drop_conn h ((h, t) :: cs) = drop_conn h cs.
Proof. unfold drop_conn. cbn [filter fst]. now rewrite Nat.eqb_refl. Qed.

Lemma drop_conn_absent h cs :
  (forall c, In c cs -> (fst c < h)%nat) -> drop_conn h cs = cs.
Proof.
  unfold drop_conn. induction cs as [| c cs IH]; intros F; [reflexivity |].
  cbn [filter]. destruct (Nat.eqb_spec (fst c) h) as [E | N].
  - specialize (F c (or_introl eq_refl)). lia.
  - cbn [negb]. rewrite IH; [reflexivity |]. intros c' I. apply F. now right.
Qed.

(** *** Every operation closes its connection when nothing is raised *)







Lemma returning_world {A} (inj : A -> retval) (m : M A) w :
  the_world (returning inj m w) = the_world (m w).
Proof.
  unfold returning, bind, the_world. now destruct (m w) as [[a | e] w'].
Qed.


(** *** A failure after the connection is opened leaves it open *)

(** When the engine lets get_user connect and take a cursor and then fails
    at the SELECT, the call returns None and the connection it opened stays
    open, whatever the database and the user id. *)
Lemma get_user_leaks uid w :
  faults w (calls w) = false ->
  faults w (S (calls w)) = false ->
  faults w (S (S (calls w))) = true ->
  the_outcome (get_user uid w) = Returned None /\
  In (next_conn w, None) (conns (the_world (get_user uid w))).
Proof.
  intros F0 F1 F2. destruct w as [d cs nc fl k clk rd lg]. cbn in F0, F1, F2.
  unfold get_user, get_user_try, try_except.
  fork; [congruence |]. fork; [congruence |]. fork; [| congruence].
  split; [reflexivity | now left].
Qed.

(** C9. get_user(7) on the sample database when the engine fails at the
    SELECT (its third engine call): the except clause returns None and
    conn.close() was never reached, so the connection that the call opened
    is still open when it returns. *)
Theorem get_user_leaves_connection_open :
  the_outcome (get_user 7 (faulty_world sample_store 2)) = Returned None /\
  conns (faulty_world sample_store 2) = [] /\
  conns (the_world (get_user 7 (faulty_world sample_store 2))) = [(0%nat, None)].
Proof. repeat split. Qed.

(** save_user(7, ...) when the engine fails at the commit: the connection
    stays open with its uncommitted row, and the file is unchanged. *)
Remark save_user_leaves_connection_open :
  the_outcome (save_user 7 "anna" "Anna" (faulty_world sample_store 3)) = Returned tt /\
  List.length (conns (the_world (save_user 7 "anna" "Anna" (faulty_world sample_store 3))))
    = 1%nat /\
  disk (the_world (save_user 7 "anna" "Anna" (faulty_world sample_store 3))) = sample_store.
Proof. repeat split. Qed.

(** ** A scenario of the specification *)

(** Three startups of owner 42, the second one then set to 'active':
    get_startups_by_owner(42) lists the three, newest first, and
    get_active_startups() lists that one with total 1. *)
Example three_startups_of_owner_42 :
  the_outcome
    ((create_startup "a" "d" "l" "g" 42 ;;
      create_startup "b" "d" "l" "g" 42 ;;
      create_startup "c" "d" "l" "g" 42 ;;
      update_startup_status 2 "active" ;;
      mine <- get_startups_by_owner 42 ;;
      active <- get_active_startups 1 10 ;;
      ret (map (lookup "id") mine, map (lookup "id") (fst active), snd active))
       (quiet_world empty_store))
  = Returned ([Some (PyInt 3); Some (PyInt 2); Some (PyInt 1)], [Some (PyInt 2)], PyInt 1).
Proof. reflexivity. Qed.

(** * Further properties of the module *)

(** ** Queries leave the database as it is *)

Ltac settled := cbn [the_world the_outcome fst snd disk ret]; reflexivity.

Ltac any_step := first [ pure_step | fork; [settled |] ].

Ltac any_last := first [ settled | last_fork; settled ].

Ltac rows_step :=
  rewrite ?bind_assoc;
  lazymatch goal with
  | |- context [bind ?m ?k ?w] =>
      rewrite (bind_returned m k w _ _ (for_each_user_id _ _ _)); world_simpl
  end.

Lemma lookups_read_only uid sid w :
  disk (the_world (get_user uid w)) = disk w /\
  disk (the_world (get_startup sid w)) = disk w /\
  disk (the_world (get_join_request_id sid uid w)) = disk w.
Proof.
  destruct w as [d cs nc fl k clk rd lg].
  unfold get_user, get_user_try, get_startup, get_startup_try,
    get_join_request_id, get_join_request_id_try, try_except.
  split; [| split].
  - do 4 any_step.
    destruct (filter (fun u => u_user_id u =? uid) (users d));
      cbn [map]; cbv iota beta; any_step; any_last.
  - do 4 any_step.
    destruct (filter (fun s => s_id s =? sid) (startups d));
      cbn [map]; cbv iota beta; any_step; any_last.
  - do 4 any_step.
    destruct (filter (Sql.member_of sid uid) (members d));
      cbn [map]; cbv iota beta; any_step; any_last.
Qed.

Lemma listings_read_only page per_page sid owner limit w :
  (forall l, disk (the_world (run_listing l page per_page w)) = disk w) /\
  disk (the_world (get_startup_members sid page per_page w)) = disk w /\
  disk (the_world (get_startups_by_owner owner w)) = disk w /\
  disk (the_world (get_recent_users limit w)) = disk w /\
  disk (the_world (get_recent_startups limit w)) = disk w /\
  disk (the_world (get_all_startup_members sid w)) = disk w /\
  disk (the_world (get_all_users w)) = disk w /\
  disk (the_world (get_statistics w)) = disk w.
Proof.
  destruct w as [d cs nc fl k clk rd lg].
  unfold get_startup_members, get_startup_members_try,
    get_startups_by_owner, get_startups_by_owner_try, get_recent_users,
    get_recent_users_try, get_recent_startups, get_recent_startups_try,
    get_all_startup_members, get_all_startup_members_try, get_all_users,
    get_all_users_try, get_statistics, get_statistics_try, count_query, try_except.
  repeat split.
  - intros l.
    destruct l; cbn [run_listing];
      unfold get_pending_startups, get_active_startups, get_completed_startups,
        get_rejected_startups, startups_page_try, try_except;
      do 4 any_step; cbn [count_row item0]; do 4 any_step; any_last.
  - do 4 any_step. cbn [count_row item0]. do 4 any_step. any_last.
  - do 5 any_step. any_last.
  - do 5 any_step. any_last.
  - do 5 any_step. any_last.
  - do 4 any_step. rows_step. any_step. any_last.
  - do 4 any_step. rows_step. any_step. any_last.
  - do 2 any_step.
    do 6 (do 2 any_step; cbn [count_row item0]; do 2 any_step).
    any_step. any_last.
Qed.

Lemma queries_read_only (c : call) (w : world) :
  read_only c = true -> disk (the_world (perform c w)) = disk w.
Proof.
  intros R. destruct c; cbn [read_only] in R; try discriminate R;
    cbn [perform]; rewrite returning_world.
  - apply (lookups_read_only user_id 0 w).
  - apply (lookups_read_only 0 startup_id w).
  - apply (listings_read_only 0 0 0 owner_id 0 w).
  - apply (proj1 (listings_read_only page per_page 0 0 0 w) Pending).
  - apply (proj1 (listings_read_only page per_page 0 0 0 w) Active).
  - apply (lookups_read_only user_id startup_id w).
  - apply (listings_read_only page per_page startup_id 0 0 w).
  - apply (listings_read_only 0 0 startup_id 0 0 w).
  - apply (listings_read_only 0 0 0 0 0 w).
  - apply (listings_read_only 0 0 0 0 0 w).
  - apply (listings_read_only 0 0 0 0 limit w).
  - apply (listings_read_only 0 0 0 0 limit w).
  - apply (proj1 (listings_read_only page per_page 0 0 0 w) Completed).
  - apply (proj1 (listings_read_only page per_page 0 0 0 w) Rejected).
Qed.

(** ** What a write leaves in the database, whatever the engine does *)

Lemma execute_rejected cur q w t f :
  faults w (calls w) = false -> txn_of (c_conn cur) (conns w) = Some t ->
  Sql.run q (view t w) = inl f ->
  execute cur q w = (Raised (DatabaseError f), ticked w).
Proof.
  intros E T R. unfold execute.
  rewrite (bind_returned _ _ _ _ _ (engine_call_ok w E)).
  cbn [ticked conns disk]. rewrite T. unfold view in R. rewrite R. reflexivity.
Qed.

Ltac ran2 := do 2 eexists; (split; [reflexivity |]); split; eauto.

Lemma create_startup_any name descr logo link owner w :
  let q := Sql.InsertStartup name descr logo link owner (clock w (clock_reads w)) in
  let id := Sql.next_rowid (map s_id (startups (disk w))) (startups_seq (disk w)) in
  exists v w',
    create_startup name descr logo link owner w = (Returned v, w') /\
    (disk w' = disk w \/ disk w' = Sql.store_after q (disk w)) /\
    (v = PyNone \/ (v = PyInt id /\ disk w' = Sql.store_after q (disk w))).
Proof.
  destruct w as [d cs nc fl k clk rd lg].
  unfold create_startup, create_startup_try, try_except.
  cbv zeta.
  repeat first [ pure_step | fork; [ran2 |] ].
  ran2.
Qed.

Lemma add_startup_member_any sid uid w :
  let id := Sql.next_rowid (map m_id (members (disk w))) (members_seq (disk w)) in
  let added :=
    Sql.set_members (disk w)
      (members (disk w) ++ [mkMember id sid uid "pending" (clock w (clock_reads w))]) id in
  exists v w',
    add_startup_member sid uid w = (Returned v, w') /\
    (disk w' = disk w \/
     (filter (Sql.member_of sid uid) (members (disk w)) = [] /\ disk w' = added)) /\
    (v = PyNone \/
     (exists m rest,
        filter (Sql.member_of sid uid) (members (disk w)) = m :: rest /\
        v = PyInt (m_id m) /\ disk w' = disk w) \/
     (filter (Sql.member_of sid uid) (members (disk w)) = [] /\
      v = PyInt id /\ disk w' = added)).
Proof.
  destruct w as [d cs nc fl k clk rd lg].
  unfold add_startup_member, add_startup_member_try, try_except.
  cbv zeta. cbn [disk clock clock_reads].
  do 4 (fork; [ran2 |]).
  destruct (filter (Sql.member_of sid uid) (members d)) as [| m rest] eqn:Hf;
    cbn [map]; cbv iota beta.
  - pure_step.
    rewrite ?bind_assoc.
    lazymatch goal with
    | |- context [bind ?m ?k ?w] =>
        let b := eval cbn in (faults w (calls w)) in
        let F := fresh "F" in
        destruct b eqn:F;
        [ let E := fresh "E" in
          eassert (E : m w = (Raised _, _))
            by (apply guarded_fail; world_simpl; exact F);
          rewrite (bind_raised m k w _ _ E); clear E; handler_runs
        | let E := fresh "E" in
          eassert (E : m w = (Returned _, _))
            by (eapply execute_ok;
                [ exact F | side F
                | cbn; rewrite (existsb_filter_nil _ _ Hf); reflexivity ]);
          rewrite (bind_returned m k w _ _ E); clear E; world_simpl ]
    end; [ran2 |].
    do 2 (fork; [ran2 |]).
    do 2 eexists. split; [reflexivity |]. split; [right | right; right]; auto.
  - fork; [ran2 |].
    do 2 eexists. split; [reflexivity |]. split; [left; reflexivity |].
    right. left. exists m, rest. auto.
Qed.

Lemma update_user_field_any uid field value w :
  exists w',
    update_user_field uid field value w = (Returned tt, w') /\
    (disk w' = disk w \/
     exists c,
       Sql.column_of field = Some c /\
       disk w' =
         Sql.set_users (disk w)
           (Sql.update_where (fun u => u_user_id u =? uid) (Sql.set_column c value)
              (users (disk w)))
           (users_seq (disk w))).
Proof.
  destruct w as [d cs nc fl k clk rd lg].
  unfold update_user_field, update_user_field_try, try_except.
  cbn [disk].
  do 2 (fork; [ran |]).
  destruct (Sql.column_of field) as [c |] eqn:C.
  - rewrite ?bind_assoc.
    lazymatch goal with
    | |- context [bind ?m ?k ?w] =>
        let b := eval cbn in (faults w (calls w)) in
        let F := fresh "F" in
        destruct b eqn:F;
        [ let E := fresh "E" in
          eassert (E : m w = (Raised _, _))
            by (apply guarded_fail; world_simpl; exact F);
          rewrite (bind_raised m k w _ _ E); clear E; handler_runs
        | let E := fresh "E" in
          eassert (E : m w = (Returned _, _))
            by (eapply execute_ok; [exact F | side F | cbn; rewrite C; reflexivity]);
          rewrite (bind_returned m k w _ _ E); clear E; world_simpl ]
    end; [ran |].
    fork; [ran |].
    last_fork; eexists; (split; [reflexivity |]); right; exists c; auto.
  - rewrite ?bind_assoc.
    lazymatch goal with
    | |- context [bind ?m ?k ?w] =>
        let b := eval cbn in (faults w (calls w)) in
        let F := fresh "F" in
        destruct b eqn:F;
        [ let E := fresh "E" in
          eassert (E : m w = (Raised _, _))
            by (apply guarded_fail; world_simpl; exact F);
          rewrite (bind_raised m k w _ _ E); clear E; handler_runs
        | let E := fresh "E" in
          eassert (E : m w = (Raised _, _))
            by (eapply execute_rejected; [exact F | side F | cbn; rewrite C; reflexivity]);
          rewrite (bind_raised m k w _ _ E); clear E; handler_runs ]
    end; ran.
Qed.

(** ** The constraints of the schema are kept *)
















(** ** Runs without a failure of the engine *)

Ltac calm_world w H :=
  destruct w as [d cs nc fl k clk rd lg]; unfold calm in H |- *; cbn in H |- *.

Ltac ran_calm H := eexists; repeat split; try reflexivity; try exact H.


Lemma get_user_run uid w :
  calm w ->
  exists w',
    get_user uid w =
      (Returned match filter (fun u => u_user_id u =? uid) (users (disk w)) with
                | [] => None
                | u :: _ => Some (user_row u)
                end, w') /\
    calm w' /\ disk w' = disk w.
Proof.
  intros H. calm_world w H.
  unfold get_user, get_user_try, try_except.
  do 4 step H.
  destruct (filter (fun u => u_user_id u =? uid) (users d));
    cbn [map]; cbv iota beta; step H; ran_calm H.
Qed.

Lemma get_startup_run sid w :
  calm w ->
  exists w',
    get_startup sid w =
      (Returned match filter (fun s => s_id s =? sid) (startups (disk w)) with
                | [] => None
                | s :: _ => Some (startup_row s)
                end, w') /\
    calm w' /\ disk w' = disk w.
Proof.
  intros H. calm_world w H.
  unfold get_startup, get_startup_try, try_except.
  do 4 step H.
  destruct (filter (fun s => s_id s =? sid) (startups d));
    cbn [map]; cbv iota beta; step H; ran_calm H.
Qed.

Lemma get_join_request_id_run sid uid w :
  calm w ->
  exists w',
    get_join_request_id sid uid w =
      (Returned match filter (Sql.member_of sid uid) (members (disk w)) with
                | [] => PyNone
                | m :: _ => PyInt (m_id m)
                end, w') /\
    calm w' /\ disk w' = disk w.
Proof.
  intros H. calm_world w H.
  unfold get_join_request_id, get_join_request_id_try, try_except.
  do 4 step H.
  destruct (filter (Sql.member_of sid uid) (members d));
    cbn [map]; cbv iota beta; step H; ran_calm H.
Qed.





Lemma update_startup_results_run id results w :
  calm w ->
  exists w',
    update_startup_results id results w = (Returned tt, w') /\
    calm w' /\
    disk w' = Sql.store_after (Sql.UpdateStartupResults results id) (disk w).
Proof.
  intros H. calm_world w H.
  unfold update_startup_results, update_startup_results_try, try_except.
  run_calm H. ran_calm H.
Qed.

Lemma update_join_request_run id status w :
  calm w ->
  exists w',
    update_join_request id status w = (Returned tt, w') /\
    calm w' /\
    disk w' = Sql.store_after (Sql.UpdateMemberStatus status id) (disk w).
Proof.
  intros H. calm_world w H.
  unfold update_join_request, update_join_request_try, try_except.
  run_calm H. ran_calm H.
Qed.

(** ** Properties recorded beside the claims *)

(** X1. Queries never change the database, whatever the engine does
    during them: after any sequence of calls of the fourteen functions that
    only send SELECT statements the committed store is the one of before. *)
Theorem queries_never_write (l : list call) (w : world) :
  forallb read_only l = true -> disk (after_calls l w) = disk w.
Proof.
  revert w. induction l as [| c l IH]; intros w R; [reflexivity |].
  cbn [forallb] in R. apply andb_true_iff in R. destruct R as [Rc Rl].
  cbn [after_calls]. rewrite (IH _ Rl). now apply queries_read_only.
Qed.

Lemma queries_never_write_witness :
  disk (after_calls [GetStatistics; GetUser 7; GetPendingStartups 1 5; GetAllUsers]
          (faulty_world sample_store 7)) = sample_store.
Proof.
  apply (queries_never_write
           [GetStatistics; GetUser 7; GetPendingStartups 1 5; GetAllUsers]
           (faulty_world sample_store 7)).
  reflexivity.
Defined.







Lemma filter_key_absent {A} (key : A -> Z) (k : Z) (l : list A) :
  ~ In k (map key l) -> filter (fun x => key x =? k) l = [].
Proof.
  induction l as [| a l IH]; intros N; [reflexivity |].
  cbn [filter]. destruct (Z.eqb_spec (key a) k) as [E | _].
  - exfalso. apply N. left. exact E.
  - apply IH. intros I. apply N. now right.
Qed.

Lemma filter_key_unique {A} (key : A -> Z) (l : list A) (x : A) :
  NoDup (map key l) -> In x l -> filter (fun y => key y =? key x) l = [x].
Proof.
  induction l as [| a l IH]; intros N I; [destruct I |].
  cbn [map] in N. inversion N as [| ? ? Na N']; subst.
  cbn [filter]. destruct I as [-> | I].
  - rewrite Z.eqb_refl, (filter_key_absent key (key x) l Na). reflexivity.
  - destruct (Z.eqb_spec (key a) (key x)) as [E | _].
    + exfalso. apply Na. rewrite E. now apply in_map.
    + now apply IH.
Qed.

Lemma filter_request_unique (l : list member) (m : member) :
  NoDup (map (fun m => (m_startup_id m, m_user_id m)) l) -> In m l ->
  filter (Sql.member_of (m_startup_id m) (m_user_id m)) l = [m].
Proof.
  induction l as [| a l IH]; intros N I; [destruct I |].
  cbn [map] in N. inversion N as [| ? ? Na N']; subst.
  cbn [filter]. destruct I as [-> | I].
  - rewrite (proj2 (member_of_true _ _ m) (conj eq_refl eq_refl)).
    now rewrite (filter_absent_key _ _ l Na).
  - destruct (Sql.member_of (m_startup_id m) (m_user_id m) a) eqn:E.
    + apply member_of_true in E. destruct E as [E1 E2].
      exfalso. apply Na. rewrite E1, E2.
      exact (in_map (fun m => (m_startup_id m, m_user_id m)) l m I).
    + now apply IH.
Qed.


Lemma sample_store_constraints : constraints_hold sample_store.
Proof.
  unfold constraints_hold, unique_user_ids, unique_requests. cbn.
  repeat split; repeat constructor; cbn; intuition congruence.
Qed.











Lemma NoDup_map_same {A B} (f : A -> B) (l : list A) (a b : A) :
  NoDup (map f l) -> In a l -> In b l -> f a = f b -> a = b.
Proof.
  induction l as [| x l IH]; intros N Ia Ib E; [destruct Ia |].
  cbn [map] in N. inversion N as [| ? ? Nx N']; subst.
  destruct Ia as [-> | Ia], Ib as [-> | Ib].
  - reflexivity.
  - exfalso. apply Nx. rewrite E. now apply in_map.
  - exfalso. apply Nx. rewrite <- E. now apply in_map.
  - now apply IH.
Qed.

Lemma filter_update_where_id (id : Z) (f : startup -> startup) (l : list startup) :
  (forall s, s_id (f s) = s_id s) ->
  filter (fun s => s_id s =? id) (Sql.update_where (fun s => s_id s =? id) f l) =
    map f (filter (fun s => s_id s =? id) l).
Proof.
  intros E. unfold Sql.update_where.
  induction l as [| x l IH]; [reflexivity |].
  cbn [map filter]. destruct (s_id x =? id) eqn:Ex.
  - rewrite E, Ex. cbn [map]. now rewrite IH.
  - rewrite Ex. exact IH.
Qed.

(** X8. update_startup_results on a stored startup: get_startup of that id
    then returns the row with the new results and every other column as it
    was, the other startups are untouched, and so are users and join
    requests. *)
Theorem results_then_get_startup (w : world) (s : startup) (results : string) :
  calm w ->
  constraints_hold (disk w) ->
  In s (startups (disk w)) ->
  exists w1,
    update_startup_results (s_id s) results w = (Returned tt, w1) /\
    the_outcome (get_startup (s_id s) w1) =
      Returned
        (Some
           (startup_row
              (mkStartup (s_id s) (s_name s) (s_description s) (s_logo s) (s_group_link s)
                 (s_owner_id s) (s_status s) results (s_created_at s) (s_started_at s)
                 (s_ended_at s)))) /\
    (forall i s0, nth_error (startups (disk w)) i = Some s0 -> s_id s0 <> s_id s ->
       nth_error (startups (disk w1)) i = Some s0) /\
    users (disk w1) = users (disk w) /\
    members (disk w1) = members (disk w).
Proof.
  intros H (_ & _ & K3 & _ & _) I.
  destruct (update_startup_results_run (s_id s) results w H) as (w1 & E1 & H1 & D1).
  destruct (get_startup_run (s_id s) w1 H1) as (w2 & E2 & _).
  exists w1. split; [exact E1 |].
  rewrite E2, D1. unfold Sql.store_after.
  cbn [Sql.run Sql.a_store Sql.set_startups startups users members the_outcome fst].
  rewrite filter_update_where_id by reflexivity.
  rewrite (filter_key_unique s_id _ s K3 I). cbn [map].
  split; [reflexivity |]. split; [| split; reflexivity].
  intros i s0 Hi N. rewrite (nth_error_update_where _ _ _ _ _ Hi).
  destruct (Z.eqb_spec (s_id s0) (s_id s)); [contradiction | reflexivity].
Qed.

Lemma results_then_get_startup_witness :
  exists w1,
    update_startup_results 2 "shipped" (quiet_world sample_store) = (Returned tt, w1) /\
    the_outcome (get_startup 2 w1) =
      Returned
        (Some
           (startup_row
              (mkStartup 2 "beta" "second" (Some "b.png") "t.me/b" 7 "active" "shipped" 21
                 (Some 30) None))).
Proof.
  destruct (results_then_get_startup (quiet_world sample_store)
              (mkStartup 2 "beta" "second" (Some "b.png") "t.me/b" 7 "active" "" 21
                 (Some 30) None)
              "shipped" (fun n => eq_refl) sample_store_constraints)
    as (w1 & E & G & _).
  - cbn. tauto.
  - exists w1. split; [exact E | exact G].
Defined.

(** X9. update_join_request of a stored request to a status other than
    'accepted' takes its user out of get_all_startup_members of its startup,
    and get_join_request_id of the pair still returns the same id. *)
Theorem unaccepted_request_is_no_member (w : world) (m : member) (status : string) :
  calm w ->
  constraints_hold (disk w) ->
  In m (members (disk w)) ->
  status <> "accepted" ->
  exists w1 roster,
    update_join_request (m_id m) status w = (Returned tt, w1) /\
    the_outcome (get_all_startup_members (m_startup_id m) w1) = Returned roster /\
    ~ In (PyInt (m_user_id m)) roster /\
    the_outcome (get_join_request_id (m_startup_id m) (m_user_id m) w1)
      = Returned (PyInt (m_id m)).
Proof.
  intros H (_ & _ & _ & K4 & K5) I N.
  destruct (update_join_request_run (m_id m) status w H) as (w1 & E1 & H1 & D1).
  destruct (get_all_startup_members_run (m_startup_id m) w1 H1) as (w2 & E2).
  destruct (get_join_request_id_run (m_startup_id m) (m_user_id m) w1 H1) as (w3 & E3 & _).
  do 2 eexists. split; [exact E1 |]. split; [now rewrite E2 |].
  assert (Ms : members (disk w1) =
               Sql.update_where (fun x => m_id x =? m_id m)
                 (Sql.set_member_status status) (members (disk w))).
  { rewrite D1. reflexivity. }
  split.
  - rewrite Ms. intros J. apply in_map_iff in J. destruct J as (m' & Em' & Im').
    apply filter_In in Im'. destruct Im' as [Im' Am'].
    apply accepted_in_true in Am'. destruct Am' as [A1 A2].
    unfold Sql.update_where in Im'. apply in_map_iff in Im'.
    destruct Im' as (m0 & E0 & I0). inversion Em' as [Eu].
    destruct (Z.eqb_spec (m_id m0) (m_id m)) as [Eid | Nid]; subst m'.
    + cbn in A2. contradiction.
    + apply Nid. f_equal.
      apply (NoDup_map_same (fun m => (m_startup_id m, m_user_id m)) _ m0 m K5 I0 I).
      now rewrite A1, Eu.
  - rewrite E3, Ms. cbn [the_outcome fst].
    assert (F : filter (Sql.member_of (m_startup_id m) (m_user_id m))
                  (Sql.update_where (fun x => m_id x =? m_id m)
                     (Sql.set_member_status status) (members (disk w)))
                = map (fun x => if m_id x =? m_id m
                                then Sql.set_member_status status x else x)
                    (filter (Sql.member_of (m_startup_id m) (m_user_id m))
                       (members (disk w)))).
    { unfold Sql.update_where. generalize (members (disk w)) as l.
      induction l as [| x l IH]; [reflexivity |].
      cbn [map filter].
      replace (Sql.member_of (m_startup_id m) (m_user_id m)
                 (if m_id x =? m_id m then Sql.set_member_status status x else x))
        with (Sql.member_of (m_startup_id m) (m_user_id m) x)
        by (destruct (m_id x =? m_id m); reflexivity).
      destruct (Sql.member_of (m_startup_id m) (m_user_id m) x);
        cbn [map]; now rewrite IH. }
    rewrite F, (filter_request_unique _ m K5 I). cbn [map].
    rewrite Z.eqb_refl. reflexivity.
Qed.

Lemma unaccepted_request_is_no_member_witness :
  exists w1 roster,
    update_join_request 1 "rejected" (quiet_world sample_store) = (Returned tt, w1) /\
    the_outcome (get_all_startup_members 2 w1) = Returned roster /\
    ~ In (PyInt 8) roster /\
    the_outcome (get_join_request_id 2 8 w1) = Returned (PyInt 1).
Proof.
  apply (unaccepted_request_is_no_member (quiet_world sample_store)
           (mkMember 1 2 8 "accepted" 40) "rejected").
  - intros n. reflexivity.
  - exact sample_store_constraints.
  - cbn. tauto.
  - discriminate.
Defined.







Ltac use_faults :=
  repeat match goal with
         | F : ?fl _ = _ |- _ => rewrite F; clear F
         end;
  cbn [orb].

(** X13. init_db has no except clause: it makes twelve engine calls
    (connect, cursor, eight CREATE statements, commit, close), and it raises
    to its caller exactly when the engine fails at one of them; otherwise it
    returns with its connection closed.  The rows of the tables are those of
    before in both cases. *)
Theorem init_db_raises_on_failure (w : world) :
  exists o w',
    init_db w = (o, w') /\
    disk w' = disk w /\
    (fails_within 12 w = true -> exists n, o = Raised (EngineFault n)) /\
    (fails_within 12 w = false ->
       o = Returned tt /\ (fresh_handles w -> conns w' = conns w)).
Proof.
  destruct w as [d cs nc fl k clk rd lg].
  unfold init_db, fails_within, fresh_handles.
  cbn [seq existsb Nat.add faults calls disk conns next_conn].
  do 12 (fork;
         [ do 2 eexists; split; [reflexivity |]; split; [reflexivity |];
           use_faults; rewrite ?orb_true_r;
           split; [intros _; eexists; reflexivity | discriminate]
         |]).
  do 2 eexists. split; [reflexivity |]. split; [reflexivity |].
  use_faults. split; [discriminate |]. intros _. split; [reflexivity |].
  intros Fresh. cbn [conns]. rewrite drop_conn_head. now apply drop_conn_absent.
Qed.

Lemma init_db_raises_on_failure_witness :
  (exists n, the_outcome (init_db (faulty_world sample_store 5)) = Raised (EngineFault n)) /\
  the_outcome (init_db (quiet_world sample_store)) = Returned tt /\
  conns (the_world (init_db (quiet_world sample_store))) = [].
Proof.
  destruct (init_db_raises_on_failure (faulty_world sample_store 5))
    as (o1 & w1 & E1 & _ & A & _).
  destruct (init_db_raises_on_failure (quiet_world sample_store))
    as (o2 & w2 & E2 & _ & _ & B).
  rewrite E1, E2. cbn [the_outcome the_world fst snd].
  destruct (B eq_refl) as [B1 B2].
  split; [apply A; reflexivity |]. split; [exact B1 |].
  apply B2. intros c [].
Defined.

(** ** Connections over a sequence of calls *)

Ltac stdy := split; cbn; first [reflexivity | lia].

Lemma steady_refl w : steady w w.
Proof. split; [reflexivity | lia]. Qed.

Lemma steady_trans w1 w2 w3 : steady w1 w2 -> steady w2 w3 -> steady w1 w3.
Proof. intros [A1 B1] [A2 B2]. split; [congruence | lia]. Qed.

Lemma ks_ret {A} (a : A) : keeps_steady (ret a).
Proof. intros w. apply steady_refl. Qed.

Lemma ks_raise {A} (e : exn) : keeps_steady (@raise A e).
Proof. intros w. apply steady_refl. Qed.

Lemma ks_bind {A B} (m : M A) (k : A -> M B) :
  keeps_steady m -> (forall a, keeps_steady (k a)) -> keeps_steady (bind m k).
Proof.
  intros Hm Hk w. unfold bind, the_world. specialize (Hm w). unfold the_world in Hm.
  destruct (m w) as [[a | e] w1]; cbn [snd] in *; [| exact Hm].
  eapply steady_trans; [exact Hm | apply Hk].
Qed.

Lemma ks_try {A} (m : M A) (h : exn -> M A) :
  keeps_steady m -> (forall e, keeps_steady (h e)) -> keeps_steady (try_except m h).
Proof.
  intros Hm Hh w. unfold try_except, the_world. specialize (Hm w). unfold the_world in Hm.
  destruct (m w) as [[a | e] w1]; cbn [snd] in *; [exact Hm |].
  eapply steady_trans; [exact Hm | apply Hh].
Qed.

Lemma ks_engine_call : keeps_steady engine_call.
Proof.
  intros w. unfold engine_call, the_world.
  destruct (faults w (calls w)); stdy.
Qed.

Lemma ks_step {A} (f : world -> outcome A * world) :
  (forall w, steady w (snd (f w))) -> keeps_steady (engine_call ;; f).
Proof. intros Hf. apply ks_bind; [apply ks_engine_call | intros _; exact Hf]. Qed.

Lemma ks_connect : keeps_steady get_db_connection.
Proof. apply ks_step. intros w. cbv beta. stdy. Qed.

Lemma ks_cursor conn : keeps_steady (conn_cursor conn).
Proof. apply ks_step. intros w. cbv beta. destruct (txn_of conn (conns w)); apply steady_refl. Qed.

Lemma ks_execute cur q : keeps_steady (execute cur q).
Proof.
  apply ks_step. intros w. cbv beta zeta.
  destruct (txn_of (c_conn cur) (conns w)) as [t |]; [| apply steady_refl].
  destruct (Sql.run q match t with Some st => st | None => disk w end) as [f | a];
    [apply steady_refl |].
  destruct (Sql.writes q); stdy.
Qed.

Lemma ks_fetchone cur : keeps_steady (fetchone cur).
Proof.
  unfold fetchone. apply ks_bind; [apply ks_engine_call | intros _].
  destruct (c_rows cur); apply ks_ret.
Qed.

Lemma ks_fetchall cur : keeps_steady (fetchall cur).
Proof. unfold fetchall. apply ks_bind; [apply ks_engine_call | intros _; apply ks_ret]. Qed.

Lemma ks_commit conn : keeps_steady (commit conn).
Proof.
  apply ks_step. intros w. cbv beta.
  destruct (txn_of conn (conns w)) as [[st |] |]; stdy.
Qed.

Lemma ks_close conn : keeps_steady (close conn).
Proof. apply ks_step. intros w. cbv beta. stdy. Qed.

Lemma ks_now : keeps_steady datetime_now.
Proof. intros w. stdy. Qed.

Lemma ks_log msg args e : keeps_steady (logging_error msg args e).
Proof. intros w. stdy. Qed.

Lemma ks_info msg : keeps_steady (logging_info msg).
Proof. intros w. stdy. Qed.

Lemma ks_item0 r : keeps_steady (item0 r).
Proof. destruct r as [[| [c v] r] |]; cbn [item0]; first [apply ks_ret | apply ks_raise]. Qed.

Lemma ks_item key r : keeps_steady (item key r).
Proof. unfold item. destruct (lookup key r); first [apply ks_ret | apply ks_raise]. Qed.

Lemma ks_for_each {A B} (f : A -> M B) (l : list A) :
  (forall a, keeps_steady (f a)) -> keeps_steady (for_each f l).
Proof.
  intros Hf. induction l as [| x l IH]; cbn [for_each]; [apply ks_ret |].
  apply ks_bind; [apply Hf | intros y].
  apply ks_bind; [exact IH | intros ys; apply ks_ret].
Qed.

Ltac ks :=
  repeat first
    [ apply ks_connect | apply ks_cursor | apply ks_execute | apply ks_fetchone
    | apply ks_fetchall | apply ks_commit | apply ks_close | apply ks_now
    | apply ks_log | apply ks_info | apply ks_item0 | apply ks_item
    | apply ks_for_each | apply ks_ret | apply ks_raise
    | apply ks_try | apply ks_bind
    | match goal with
      | |- forall _, keeps_steady _ => intro
      | |- keeps_steady (let '(_, _) := ?x in _) => destruct x
      | |- keeps_steady (match ?x with _ => _ end) => destruct x
      end ].

Lemma calls_keep_steady (c : call) : keeps_steady (perform c).
Proof.
  destruct c; cbn [perform]; unfold returning,
    get_user, get_user_try, save_user, save_user_try, update_user_field,
    update_user_field_try, create_startup, create_startup_try, get_startup,
    get_startup_try, get_startups_by_owner, get_startups_by_owner_try,
    get_pending_startups, get_active_startups, get_completed_startups,
    get_rejected_startups, startups_page_try, update_startup_status,
    update_startup_status_try, update_startup_results, update_startup_results_try,
    add_startup_member, add_startup_member_try, get_join_request_id,
    get_join_request_id_try, update_join_request, update_join_request_try,
    get_startup_members, get_startup_members_try, get_all_startup_members,
    get_all_startup_members_try, get_statistics, get_statistics_try, count_query,
    get_all_users, get_all_users_try, get_recent_users, get_recent_users_try,
    get_recent_startups, get_recent_startups_try; ks.
Qed.



(** ** Paging through a listing *)





(** ** Composing writes with queries *)




Lemma in_limit_offset {A} (limit offset : Z) (l : list A) (x : A) :
  In x (Sql.limit_offset limit offset l) -> In x l.
Proof.
  unfold Sql.limit_offset. intros I.
  assert (J : In x (skipn (Z.to_nat offset) l)).
  { destruct (limit <? 0); [exact I |].
    rewrite <- (firstn_skipn (Z.to_nat limit) (skipn (Z.to_nat offset) l)).
    apply in_or_app. now left. }
  rewrite <- (firstn_skipn (Z.to_nat offset) l). apply in_or_app. now right.
Qed.

Lemma status_update_rows id status now (l : list startup) s' :
  In s' (startups (Sql.store_after (status_update id status now)
                     (mkStore [] 0 l 0 [] 0))) ->
  (s_id s' = id /\ s_status s' = status) \/ (s_id s' <> id /\ In s' l).
Proof.
  unfold status_update, Sql.store_after.
  destruct (String.eqb status "active"); [| destruct (String.eqb status "completed")];
    cbn [Sql.run Sql.a_store Sql.set_startups startups]; unfold Sql.update_where;
    intros I; apply in_map_iff in I; destruct I as (s0 & E & I0);
    (destruct (Z.eqb_spec (s_id s0) id) as [Eid | Nid];
     [left; subst s'; split; [exact Eid | reflexivity] | right; subst s'; tauto]).
Qed.

Lemma status_update_startups id status now st :
  startups (Sql.store_after (status_update id status now) st) =
    startups (Sql.store_after (status_update id status now)
                (mkStore [] 0 (startups st) 0 [] 0)).
Proof.
  unfold status_update, Sql.store_after.
  destruct (String.eqb status "active"); [| destruct (String.eqb status "completed")];
    reflexivity.
Qed.

(** X17. A status change moves a startup between the listings: after
    update_startup_status of a stored startup, get_startup shows the new
    status, and no page of the listing of any other status contains a row
    with that id. *)
Theorem status_change_moves_startup (w : world) (s : startup) (status : string) :
  calm w ->
  In s (startups (disk w)) ->
  exists w1 r,
    update_startup_status (s_id s) status w = (Returned tt, w1) /\
    the_outcome (get_startup (s_id s) w1) = Returned (Some r) /\
    lookup "id" r = Some (PyInt (s_id s)) /\
    lookup "status" r = Some (PyStr status) /\
    (forall l page per_page r',
       listing_status l <> status ->
       In r' (page_of l page per_page w1) ->
       lookup "id" r' <> Some (PyInt (s_id s))).
Proof.
  intros H I.
  destruct (update_startup_status_run (s_id s) status w H) as (w1 & E1 & F1 & D1).
  assert (H1 : calm w1) by exact (calm_same _ _ F1 H).
  destruct (get_startup_run (s_id s) w1 H1) as (w2 & E2 & _).
  assert (Rows : forall s', In s' (startups (disk w1)) ->
                   (s_id s' = s_id s /\ s_status s' = status) \/
                   (s_id s' <> s_id s /\ In s' (startups (disk w)))).
  { intros s' I'. rewrite D1, status_update_startups in I'.
    now apply status_update_rows in I'. }
  assert (Hit : exists s', In s' (startups (disk w1)) /\ s_id s' = s_id s).
  { rewrite D1. unfold status_update, Sql.store_after.
    destruct (String.eqb status "active"); [| destruct (String.eqb status "completed")];
      cbn [Sql.run Sql.a_store Sql.set_startups startups]; unfold Sql.update_where;
      eexists; (split; [apply in_map; exact I |]); rewrite Z.eqb_refl; reflexivity. }
  destruct Hit as (s1 & I1 & Id1).
  destruct (filter (fun x => s_id x =? s_id s) (startups (disk w1))) as [| s' rest] eqn:Hf.
  { exfalso.
    assert (J : In s1 (filter (fun x => s_id x =? s_id s) (startups (disk w1)))).
    { apply filter_In. split; [exact I1 | now apply Z.eqb_eq]. }
    rewrite Hf in J. destruct J. }
  assert (J : In s' (filter (fun x => s_id x =? s_id s) (startups (disk w1))))
    by (rewrite Hf; now left).
  apply filter_In in J. destruct J as [J1 J2]. apply Z.eqb_eq in J2.
  destruct (Rows s' J1) as [[_ St] | [N _]]; [| contradiction].
  exists w1, (startup_row s'). split; [exact E1 |].
  split; [now rewrite E2 |].
  split; [cbn; now rewrite J2 |]. split; [cbn; now rewrite St |].
  intros l page per_page r' Nl Ir.
  unfold page_of in Ir. rewrite (listing_run l page per_page w1 H1) in Ir.
  apply in_map_iff in Ir. destruct Ir as (x & Ex & Ix).
  apply in_limit_offset in Ix.
  apply (Permutation_in _ (order_by_desc_perm _ _)) in Ix.
  apply filter_In in Ix. destruct Ix as [Ix Sx].
  unfold Sql.with_status in Sx. apply String.eqb_eq in Sx.
  subst r'. cbn. intros Eq. inversion Eq as [Eid].
  destruct (Rows x Ix) as [[_ St'] | [N _]]; [congruence | contradiction].
Qed.

Lemma status_change_moves_startup_witness :
  exists w1 r,
    update_startup_status 1 "active" (quiet_world sample_store) = (Returned tt, w1) /\
    the_outcome (get_startup 1 w1) = Returned (Some r) /\
    lookup "status" r = Some (PyStr "active") /\
    (forall r', In r' (page_of Pending 1 5 w1) -> lookup "id" r' <> Some (PyInt 1)).
Proof.
  destruct (status_change_moves_startup (quiet_world sample_store)
              (mkStartup 1 "alpha" "first" (Some "a.png") "t.me/a" 7 "pending" "" 20 None None)
              "active" (fun n => eq_refl))
    as (w1 & r & E & G & _ & St & L).
  - cbn. tauto.
  - exists w1, r. split; [exact E |]. split; [exact G |]. split; [exact St |].
    intros r'. apply (L Pending 1 5 r'). discriminate.
Defined.

(** X18. An id that comes back is an id that is stored, whatever the engine
    does: when create_startup returns an id, the committed startups hold a
    'pending' row with that id and the passed name and owner; when
    add_startup_member returns an id, the committed join requests hold a row
    with that id for that pair. *)
Theorem returned_ids_are_stored (w : world) :
  (forall name descr logo link owner id,
     the_outcome (create_startup name descr logo link owner w) = Returned (PyInt id) ->
     exists s,
       In s (startups (disk (the_world (create_startup name descr logo link owner w)))) /\
       s_id s = id /\ s_name s = name /\ s_owner_id s = owner /\ s_status s = "pending") /\
  (forall startup_id user_id id,
     the_outcome (add_startup_member startup_id user_id w) = Returned (PyInt id) ->
     exists m,
       In m (members (disk (the_world (add_startup_member startup_id user_id w)))) /\
       m_id m = id /\ m_startup_id m = startup_id /\ m_user_id m = user_id).
Proof.
  split.
  - intros name descr logo link owner id R.
    destruct (create_startup_any name descr logo link owner w)
      as (v & w' & E & _ & [V | [V D]]);
      rewrite E in R |- *; cbn [the_outcome the_world fst snd] in R |- *;
      rewrite V in R; inversion R as [Eid].
    rewrite D. unfold Sql.store_after.
    cbn [Sql.run Sql.a_store Sql.set_startups startups].
    eexists. split; [apply in_or_app; right; left; reflexivity |].
    repeat split.
  - intros sid uid id R.
    destruct (add_startup_member_any sid uid w)
      as (v & w' & E & _ & [V | [(m & rest & Hf & V & D) | (Hf & V & D)]]);
      rewrite E in R |- *; cbn [the_outcome the_world fst snd] in R |- *;
      rewrite V in R; inversion R as [Eid].
    + rewrite D.
      assert (I : In m (filter (Sql.member_of sid uid) (members (disk w))))
        by (rewrite Hf; now left).
      apply filter_In in I. destruct I as [I Mo]. apply member_of_true in Mo.
      exists m. tauto.
    + rewrite D. cbn [Sql.set_members members].
      eexists. split; [apply in_or_app; right; left; reflexivity |].
      repeat split.
Qed.

Lemma returned_ids_are_stored_witness :
  exists s,
    In s (startups (disk (the_world
                            (create_startup "delta" "fourth" "d.png" "t.me/d" 8
                               (quiet_world sample_store))))) /\
    s_id s = 4 /\ s_name s = "delta" /\ s_owner_id s = 8 /\ s_status s = "pending".
Proof.
  apply (proj1 (returned_ids_are_stored (quiet_world sample_store))
           "delta" "fourth" "d.png" "t.me/d" 8 4).
  reflexivity.
Defined.

Lemma filter_update_where_user (uid : Z) (f : user -> user) (l : list user) :
  (forall u, u_user_id (f u) = u_user_id u) ->
  filter (fun u => u_user_id u =? uid) (Sql.update_where (fun u => u_user_id u =? uid) f l) =
    map f (filter (fun u => u_user_id u =? uid) l).
Proof.
  intros E. unfold Sql.update_where.
  induction l as [| x l IH]; [reflexivity |].
  cbn [map filter]. destruct (u_user_id x =? uid) eqn:Ex.
  - rewrite E, Ex. cbn [map]. now rewrite IH.
  - rewrite Ex. exact IH.
Qed.

(** X19. update_user_field followed by get_user: for a stored user and a
    known-safe field, the dict of get_user has the new value under the key
    named by the field and, under every other key, what it had before. *)
Theorem field_update_then_get_user (w : world) (u : user) (field value : string) :
  calm w ->
  constraints_hold (disk w) ->
  In u (users (disk w)) ->
  In field known_safe_fields ->
  exists w1 before after,
    the_outcome (get_user (u_user_id u) w) = Returned (Some before) /\
    update_user_field (u_user_id u) field value w = (Returned tt, w1) /\
    the_outcome (get_user (u_user_id u) w1) = Returned (Some after) /\
    lookup field after = Some (PyStr value) /\
    (forall key, key <> field -> lookup key after = lookup key before).
Proof.
  intros H (_ & K2 & _ & _ & _) I K.
  destruct (known_safe_is_column field K) as [c C].
  destruct (get_user_run (u_user_id u) w H) as (w0 & E0 & _).
  assert (Cw : exists w1,
             update_user_field (u_user_id u) field value w = (Returned tt, w1) /\
             calm w1 /\
             disk w1 =
               Sql.set_users (disk w)
                 (Sql.update_where (fun x => u_user_id x =? u_user_id u)
                    (Sql.set_column c value) (users (disk w)))
                 (users_seq (disk w))).
  { destruct (update_user_field_any (u_user_id u) field value w) as (w1 & E1 & D1).
    destruct (calls_keep_steady (UpdateUserField (u_user_id u) field value) w) as [S1 _].
    cbn [perform] in S1. rewrite returning_world, E1 in S1. cbn [the_world snd] in S1.
    destruct (update_user_field_run (u_user_id u) field value c w H C) as (w1' & E1' & D1').
    rewrite E1 in E1'. inversion E1'. subst w1'.
    exists w1. split; [exact E1 |]. split; [| exact D1'].
    intros n. rewrite S1. apply H. }
  destruct Cw as (w1 & E1 & H1 & D1).
  destruct (get_user_run (u_user_id u) w1 H1) as (w2 & E2 & _).
  exists w1, (user_row u), (user_row (Sql.set_column c value u)).
  rewrite E0, E2, D1. cbn [the_outcome fst Sql.set_users users].
  rewrite filter_update_where_user by (intros x; destruct c; reflexivity).
  rewrite (filter_key_unique u_user_id _ u K2 I). cbn [map].
  split; [reflexivity |]. split; [exact E1 |]. split; [reflexivity |].
  unfold known_safe_fields in K. cbn [In] in K.
  destruct K as [<- | [<- | [<- | [<- | [<- | [<- | [<- | []]]]]]]];
    cbn in C; inversion C; subst c; (split; [reflexivity |]);
    intros key N; cbn [user_row Sql.set_column lookup u_id u_user_id u_username
                         u_first_name u_last_name u_phone u_gender u_birth_date u_bio
                         u_joined_at];
    repeat match goal with
           | |- context [String.eqb ?a key] =>
               destruct (String.eqb_spec a key); [try reflexivity; try congruence |]
           end; reflexivity.
Qed.

Lemma field_update_then_get_user_witness :
  exists w1 before after,
    the_outcome (get_user 7 (quiet_world sample_store)) = Returned (Some before) /\
    update_user_field 7 "phone" "+998" (quiet_world sample_store) = (Returned tt, w1) /\
    the_outcome (get_user 7 w1) = Returned (Some after) /\
    lookup "phone" after = Some (PyStr "+998") /\
    (forall key, key <> "phone" -> lookup key after = lookup key before).
Proof.
  apply (field_update_then_get_user (quiet_world sample_store)
           (mkUser 1 7 "ann" "Ann" "Lee" "+1" "f" "2000-01-01" "hello" 10) "phone" "+998").
  - intros n. reflexivity.
  - exact sample_store_constraints.
  - cbn. tauto.
  - cbn. tauto.
Defined.


